(** * Nuitka code generation back end: a shallow embedding

    This development embeds, function by function, the parts of

    - [nuitka/codegen/ConstantCodes.py],
    - [nuitka/codegen/CodeGeneration.py] and
    - [nuitka/tree/ReformulationComparisonExpressions.py]

    that the specification talks about, and proves (or refutes) what the
    specification states about them.

    Conventions.
    - Python functions that mutate the emission context, the [emit]
      collector or module globals become computations in the monad [M] over
      the record [State]; a Python exception becomes the outcome [Raise].
    - Definitions carry the name of the Python function they embed.
    - The modules [Contexts], [Generator], [Constants] and the node classes
      are not part of the sources at hand.  What is needed of them is
      modelled from the specification; every such definition says so in its
      documentation. *)

From Stdlib Require Import ZArith List Bool Lia DecimalString DecimalPos.
From stdpp Require Import base decidable option list strings gmap.

Import ListNotations.
Local Open Scope string_scope.
Local Open Scope list_scope.

(** Induction principles of the nested syntax trees below go through the
    lists, pairs and options they contain. *)
Scheme All for list.
Scheme All for prod.
Scheme All for option.

(** Decimal rendering of a number, as Python's ["%d"] does it. *)
Definition decimal (n : nat) : string :=
  NilZero.string_of_uint (Nat.to_uint n).

Definition decimalZ (z : Z) : string :=
  NilZero.string_of_int (Z.to_int z).

(** ** Constants of the compiled program *)

Module Constants.

(** A Python literal value.  The runtime type is the constructor.  A float
    is kept as its IEEE-754 binary64 bit pattern, which is what
    [struct.pack("<d", value)] in [ConstantCodes._packFloat] produces.
    Dictionaries and sets are kept as the list of their items in iteration
    order. *)
Inductive constant : Type :=
| CNone
| CEllipsis
| CBool (b : bool)
| CInt (z : Z)
| CFloat (bits : Z)
| CStr (s : string)
| CTuple (elements : list constant)
| CList (elements : list constant)
| CDict (items : list (constant * constant))
| CSet (elements : list constant).

Inductive runtime_type : Type :=
| NoneType | EllipsisType | BoolType | IntType | FloatType | StrType
| TupleType | ListType | DictType | SetType.

#[global] Instance runtime_type_eq_dec : EqDecision runtime_type.
Proof. solve_decision. Defined.


(** Python's truth value of a constant, as used by [if constant:]. *)
Definition truth (c : constant) : bool :=
  match c with
  | CNone => false
  | CEllipsis => true
  | CBool b => b
  | CInt z => negb (z =? 0)%Z
  | CFloat bits => negb (Z.land bits (2 ^ 63 - 1) =? 0)%Z
  | CStr s => negb (String.eqb s EmptyString)
  | CTuple l | CList l | CSet l => match l with [] => false | _ => true end
  | CDict l => match l with [] => false | _ => true end
  end.

(** The integer a binary64 bit pattern denotes, when it denotes one. *)
Definition float_integral_value (bits : Z) : option Z :=
  let sign := if Z.testbit bits 63 then (-1)%Z else 1%Z in
  let e := Z.land (Z.shiftr bits 52) 2047 in
  let f := Z.land bits (2 ^ 52 - 1) in
  if (e =? 0)%Z then (if (f =? 0)%Z then Some 0%Z else None)
  else if (e =? 2047)%Z then None
  else
    let m := (2 ^ 52 + f)%Z in
    let x := (e - 1075)%Z in
    if (0 <=? x)%Z then Some (sign * m * 2 ^ x)%Z
    else if (m mod 2 ^ (- x) =? 0)%Z then Some (sign * (m / 2 ^ (- x)))%Z
    else None.


Section ListCompare.
Context {A : Type} (eqb : A -> A -> bool).

Fixpoint list_eqb (l1 l2 : list A) : bool :=
  match l1, l2 with
  | [], [] => true
  | x :: l1', y :: l2' => eqb x y && list_eqb l1' l2'
  | _, _ => false
  end.
End ListCompare.

(** Modelled from the spec: [Constants.compareConstants], which is not in
    the sources at hand.  "Deduplication is by deep value equality
    conditioned on exact runtime type": the two constants have the same
    runtime type and the same value, containers element by element under
    the same comparison. *)
Fixpoint compareConstants (a b : constant) {struct a} : bool :=
  match a, b with
  | CNone, CNone => true
  | CEllipsis, CEllipsis => true
  | CBool x, CBool y => Bool.eqb x y
  | CInt x, CInt y => (x =? y)%Z
  | CFloat x, CFloat y => (x =? y)%Z
  | CStr x, CStr y => String.eqb x y
  | CTuple la, CTuple lb => list_eqb compareConstants la lb
  | CList la, CList lb => list_eqb compareConstants la lb
  | CSet la, CSet lb => list_eqb compareConstants la lb
  | CDict la, CDict lb =>
      (fix items (la lb : list (constant * constant)) : bool :=
         match la, lb with
         | [], [] => true
         | (ka, va) :: la', (kb, vb) :: lb' =>
             compareConstants ka kb && compareConstants va vb && items la' lb'
         | _, _ => false
         end) la lb
  | _, _ => false
  end.


(** Modelled from the spec: [Constants.isMutable], which is not in the
    sources at hand.  Lists, dictionaries and sets can be changed in
    place; a tuple is mutable when one of its elements is. *)
Fixpoint isMutable (c : constant) : bool :=
  match c with
  | CList _ | CDict _ | CSet _ => true
  | CTuple l => existsb isMutable l
  | _ => false
  end.

(** Python's built-in [hash]: [None] stands for the [TypeError] of an
    unhashable value.  Only the contract of [hash] matters here: equal
    values have equal hashes, and a number has the hash of the integer it
    denotes, so [hash(1) == hash(1.0) == hash(True)]. *)
Fixpoint py_hash (c : constant) : option Z :=
  match c with
  | CNone => Some 1361%Z
  | CEllipsis => Some 1362%Z
  | CBool b => Some (if b then 1 else 0)%Z
  | CInt z => Some z
  | CFloat bits =>
      match float_integral_value bits with
      | Some z => Some z
      | None => Some bits
      end
  | CStr s => Some (Z.of_nat (String.length s))
  | CTuple l =>
      (fix go (l : list constant) : option Z :=
         match l with
         | [] => Some 3527%Z
         | x :: l' =>
             match py_hash x, go l' with
             | Some h, Some r => Some (h + 31 * r)%Z
             | _, _ => None
             end
         end) l
  | CList _ | CDict _ | CSet _ => None
  end.


End Constants.

(** ** The constant pool's keys *)

Module HashableConstant.
Import Constants.

(** [class HashableConstant] of [ConstantCodes.py]: the wrapper under
    which constants are used as dictionary keys. *)
Record t : Type := HashableConstant { getConstant : constant }.

(** [__hash__]: the hash of the constant, or 7 when the constant cannot be
    hashed.  (The [range] case of the source has no counterpart among the
    constants modelled.) *)
Definition hash (self : t) : Z :=
  match py_hash (getConstant self) with
  | Some h => h
  | None => 7%Z
  end.

(** [__eq__]. *)
Definition eq (self other : t) : bool :=
  compareConstants (getConstant self) (getConstant other).

(** A Python [dict] with [HashableConstant] keys, in insertion order: a
    key is found at the first entry with the same hash that [__eq__]
    accepts. *)
Definition dict (V : Type) : Type := list (t * V).

Fixpoint lookup {V} (key : t) (d : dict V) : option V :=
  match d with
  | [] => None
  | (k, v) :: d' =>
      if (hash k =? hash key)%Z && eq k key then Some v else lookup key d'
  end.

(** [d[key] = value] for a key that is not in [d]. *)
Definition insert_new {V} (key : t) (value : V) (d : dict V) : dict V :=
  d ++ [(key, value)].

End HashableConstant.

(** ** Emitted code, emission context and the generation monad *)

Module Emission.

(** A value stored in one of the context's jump-target slots.  Python does
    not type these slots: besides a label (a string) the code stores
    [None], the pair [(label, indicator)] that [setLoopBreakTarget] and
    [setLoopContinueTarget] build when they are given an indicator name,
    and, by line 254 of [CodeGeneration.py], a bound method object. *)
Inductive target : Type :=
| NoTarget
| LabelTarget (l : string)
| PairTarget (t : target) (indicator : string)
| BoundMethod (method : string).

#[global] Instance target_eq_dec : EqDecision target.
Proof. solve_decision. Defined.

Definition is_label (t : target) : bool :=
  match t with LabelTarget _ => true | _ => false end.

(** Python's [type(t) is tuple]. *)
Definition is_tuple (t : target) : bool :=
  match t with PairTarget _ _ => true | _ => false end.

(** A location in the compiled program, [node.getSourceReference()]. *)
Definition source_ref : Type := nat.

Definition node_id : Type := nat.

(** One piece of emitted code.  [Line] is text that the sources at hand
    pass to [emit] themselves.  The other constructors stand for what a
    function of the [Generator] module, or one of its code templates,
    emits; the module is not in the sources at hand, so its output is
    kept as the call with the arguments and the context targets it was
    given.  Modelled from the spec: a support call that can fail is
    followed by a check that branches to the exception-escape target, so
    each such call carries that target. *)
Inductive code : Type :=
| Line (text : string)
| SetIndicator (name : string) (value : bool)
| IfIndicator (comment : string) (name : string)
| EndBlock
| Goto (t : target)
| LabelCode (t : target)
| ErrorExitBool (condition : string) (escape : target)
| Branching (condition : string) (true_target false_target : target)
| Support (entry : string) (to_name : string) (args : list string)
          (escape : target)
| SupportBranch (entry : string) (args : list string)
                (true_target false_target escape : target)
| AssignVariable (variable : string) (tmp_name : string) (owned : bool)
| LoopBreakNext (to_name value : string) (break_target escape : target)
| RaiseCode (entry : string) (args : list string) (escape : target)
| GeneratorCode (function : string) (args : list string)
| FinalHandlerStart (python3 : bool) (final_error_target : target)
                    (keepers : list string)
| FinalHandlerReraise (exception_exit : target) (keepers : list string)
| FinalHandlerReturnReraise (generator : bool) (parent_return_target : target).

Definition newline : string := String (Ascii.ascii_of_nat 10) EmptyString.

(** The text of the pieces whose text is written in
    [CodeGeneration.py] itself. *)
Definition render (c : code) : option string :=
  match c with
  | Line text => Some text
  | SetIndicator name value =>
      Some (name +:+ " = " +:+ (if value then "true" else "false") +:+ ";")
  | IfIndicator comment name =>
      Some (comment +:+ newline +:+ "if ( " +:+ name +:+ " )" +:+ newline
            +:+ "{" +:+ newline)
  | EndBlock => Some "}"
  | _ => None
  end.

(** What [Tracing.printError] has been given. *)
Inductive report : Type :=
| Problem (node : node_id) (at_ref : source_ref)
| ProblemNone.

#[global] Instance report_eq_dec : EqDecision report.
Proof. solve_decision. Defined.

Inductive exn : Type :=
| AssertionError (what : string)
| AttributeError (what : string)
| UnboundLocalError (what : string).

(** Modelled from the spec: the per-body [Context] of module [Contexts],
    which is not in the sources at hand: "temp-name/label allocation,
    ownership (cleanup) tracking, branch/loop/exception target stacks",
    and the constant pool of the module. *)
Record Context : Type := mkContext {
  labels : gmap string nat;
  tmp_names : gmap string nat;
  cleanup_names : list string;
  true_target : target;
  false_target : target;
  loop_break : target;
  loop_continue : target;
  return_target : target;
  exception_escape : target;
  exception_not_occured : target;
  exception_published : bool;
  return_release_mode : bool;
  keeper_count : nat;
  needs_exception_variables : bool;
  current_source_ref : option source_ref;
  constants : HashableConstant.dict string
}.

(** A statement boundary: the statement whose code has just been
    generated, the cleanup set and the whitelist at that moment, and
    whether [generateStatementCode] checked them. *)
Record boundary : Type := Boundary {
  boundary_statement : node_id;
  boundary_cleanup : list string;
  boundary_whitelist : list string;
  boundary_checked : bool
}.

(** The state code generation runs in: the context, the codes collected by
    the current [emit], the module global [_temp_whitelist], the
    [code_generated] attribute of the nodes, and the error output.
    [boundaries] is a ghost field: the source has no counterpart, it
    records the statement boundaries passed so that they can be talked
    about. *)
Record State : Type := mkState {
  context : Context;
  codes : list code;
  _temp_whitelist : list string;
  code_generated : gset node_id;
  errors : list report;
  boundaries : list boundary
}.

Inductive outcome (A : Type) : Type :=
| Ok (a : A) (s : State)
| Raise (e : exn) (s : State)
| OutOfFuel.
Arguments Ok {A} a s.
Arguments Raise {A} e s.
Arguments OutOfFuel {A}.

Definition M (A : Type) : Type := State -> outcome A.

Definition ret {A} (a : A) : M A := fun s => Ok a s.

Definition bind {A B} (m : M A) (f : A -> M B) : M B :=
  fun s =>
    match m s with
    | Ok a s' => f a s'
    | Raise e s' => Raise e s'
    | OutOfFuel => OutOfFuel
    end.

Definition raise {A} (e : exn) : M A := fun s => Raise e s.

Definition out_of_fuel {A} : M A := fun _ => OutOfFuel.

(** [try: m except: handler; raise]. *)
Definition on_exception {A} (m : M A) (handler : M unit) : M A :=
  fun s =>
    match m s with
    | Raise e s' =>
        match handler s' with
        | Ok _ s'' => Raise e s''
        | Raise e' s'' => Raise e' s''
        | OutOfFuel => OutOfFuel
        end
    | r => r
    end.

Definition get : M State := fun s => Ok s s.
Definition put (s : State) : M unit := fun _ => Ok tt s.
Definition gets {A} (f : State -> A) : M A := fun s => Ok (f s) s.
Definition modify (f : State -> State) : M unit := fun s => Ok tt (f s).

(** Python's [assert condition, what]. *)
Definition assert (condition : bool) (what : string) : M unit :=
  if condition then ret tt else raise (AssertionError what).

Definition when (condition : bool) (m : M unit) : M unit :=
  if condition then m else ret tt.

End Emission.

Export Emission.

Declare Scope gen_scope.
Delimit Scope gen_scope with gen.
Notation "x <- m ;; k" := (bind m (fun x => k))
  (at level 100, m at next level, right associativity) : gen_scope.
Notation "m ;; k" := (bind m (fun _ => k))
  (at level 100, right associativity) : gen_scope.
Local Open Scope gen_scope.


(** ** The operations of the emission context *)

Module Contexts.
Import Constants.

Definition with_context (f : Context -> Context) (s : State) : State :=
  mkState (f (context s)) (codes s) (_temp_whitelist s) (code_generated s)
          (errors s) (boundaries s).

Definition with_codes (f : list code -> list code) (s : State) : State :=
  mkState (context s) (f (codes s)) (_temp_whitelist s) (code_generated s)
          (errors s) (boundaries s).

Definition with_temp_whitelist (w : list string) (s : State) : State :=
  mkState (context s) (codes s) w (code_generated s) (errors s)
          (boundaries s).

Definition with_code_generated (f : gset node_id -> gset node_id)
    (s : State) : State :=
  mkState (context s) (codes s) (_temp_whitelist s) (f (code_generated s))
          (errors s) (boundaries s).

Definition with_errors (f : list report -> list report) (s : State)
    : State :=
  mkState (context s) (codes s) (_temp_whitelist s) (code_generated s)
          (f (errors s)) (boundaries s).

Definition with_boundaries (f : list boundary -> list boundary) (s : State)
    : State :=
  mkState (context s) (codes s) (_temp_whitelist s) (code_generated s)
          (errors s) (f (boundaries s)).

Definition set_labels v (c : Context) : Context :=
  mkContext v (tmp_names c) (cleanup_names c) (true_target c)
    (false_target c) (loop_break c) (loop_continue c) (return_target c)
    (exception_escape c) (exception_not_occured c) (exception_published c)
    (return_release_mode c) (keeper_count c) (needs_exception_variables c)
    (current_source_ref c) (constants c).

Definition set_tmp_names v (c : Context) : Context :=
  mkContext (labels c) v (cleanup_names c) (true_target c)
    (false_target c) (loop_break c) (loop_continue c) (return_target c)
    (exception_escape c) (exception_not_occured c) (exception_published c)
    (return_release_mode c) (keeper_count c) (needs_exception_variables c)
    (current_source_ref c) (constants c).

Definition set_cleanup_names v (c : Context) : Context :=
  mkContext (labels c) (tmp_names c) v (true_target c)
    (false_target c) (loop_break c) (loop_continue c) (return_target c)
    (exception_escape c) (exception_not_occured c) (exception_published c)
    (return_release_mode c) (keeper_count c) (needs_exception_variables c)
    (current_source_ref c) (constants c).

Definition set_true_target v (c : Context) : Context :=
  mkContext (labels c) (tmp_names c) (cleanup_names c) v
    (false_target c) (loop_break c) (loop_continue c) (return_target c)
    (exception_escape c) (exception_not_occured c) (exception_published c)
    (return_release_mode c) (keeper_count c) (needs_exception_variables c)
    (current_source_ref c) (constants c).

Definition set_false_target v (c : Context) : Context :=
  mkContext (labels c) (tmp_names c) (cleanup_names c) (true_target c)
    v (loop_break c) (loop_continue c) (return_target c)
    (exception_escape c) (exception_not_occured c) (exception_published c)
    (return_release_mode c) (keeper_count c) (needs_exception_variables c)
    (current_source_ref c) (constants c).

Definition set_loop_break v (c : Context) : Context :=
  mkContext (labels c) (tmp_names c) (cleanup_names c) (true_target c)
    (false_target c) v (loop_continue c) (return_target c)
    (exception_escape c) (exception_not_occured c) (exception_published c)
    (return_release_mode c) (keeper_count c) (needs_exception_variables c)
    (current_source_ref c) (constants c).

Definition set_loop_continue v (c : Context) : Context :=
  mkContext (labels c) (tmp_names c) (cleanup_names c) (true_target c)
    (false_target c) (loop_break c) v (return_target c)
    (exception_escape c) (exception_not_occured c) (exception_published c)
    (return_release_mode c) (keeper_count c) (needs_exception_variables c)
    (current_source_ref c) (constants c).

Definition set_return_target v (c : Context) : Context :=
  mkContext (labels c) (tmp_names c) (cleanup_names c) (true_target c)
    (false_target c) (loop_break c) (loop_continue c) v
    (exception_escape c) (exception_not_occured c) (exception_published c)
    (return_release_mode c) (keeper_count c) (needs_exception_variables c)
    (current_source_ref c) (constants c).

Definition set_exception_escape v (c : Context) : Context :=
  mkContext (labels c) (tmp_names c) (cleanup_names c) (true_target c)
    (false_target c) (loop_break c) (loop_continue c) (return_target c)
    v (exception_not_occured c) (exception_published c)
    (return_release_mode c) (keeper_count c) (needs_exception_variables c)
    (current_source_ref c) (constants c).

Definition set_exception_not_occured v (c : Context) : Context :=
  mkContext (labels c) (tmp_names c) (cleanup_names c) (true_target c)
    (false_target c) (loop_break c) (loop_continue c) (return_target c)
    (exception_escape c) v (exception_published c)
    (return_release_mode c) (keeper_count c) (needs_exception_variables c)
    (current_source_ref c) (constants c).

Definition set_exception_published v (c : Context) : Context :=
  mkContext (labels c) (tmp_names c) (cleanup_names c) (true_target c)
    (false_target c) (loop_break c) (loop_continue c) (return_target c)
    (exception_escape c) (exception_not_occured c) v
    (return_release_mode c) (keeper_count c) (needs_exception_variables c)
    (current_source_ref c) (constants c).

Definition set_return_release_mode v (c : Context) : Context :=
  mkContext (labels c) (tmp_names c) (cleanup_names c) (true_target c)
    (false_target c) (loop_break c) (loop_continue c) (return_target c)
    (exception_escape c) (exception_not_occured c) (exception_published c)
    v (keeper_count c) (needs_exception_variables c)
    (current_source_ref c) (constants c).

Definition set_keeper_count v (c : Context) : Context :=
  mkContext (labels c) (tmp_names c) (cleanup_names c) (true_target c)
    (false_target c) (loop_break c) (loop_continue c) (return_target c)
    (exception_escape c) (exception_not_occured c) (exception_published c)
    (return_release_mode c) v (needs_exception_variables c)
    (current_source_ref c) (constants c).

Definition set_needs_exception_variables v (c : Context) : Context :=
  mkContext (labels c) (tmp_names c) (cleanup_names c) (true_target c)
    (false_target c) (loop_break c) (loop_continue c) (return_target c)
    (exception_escape c) (exception_not_occured c) (exception_published c)
    (return_release_mode c) (keeper_count c) v
    (current_source_ref c) (constants c).

Definition set_current_source_ref v (c : Context) : Context :=
  mkContext (labels c) (tmp_names c) (cleanup_names c) (true_target c)
    (false_target c) (loop_break c) (loop_continue c) (return_target c)
    (exception_escape c) (exception_not_occured c) (exception_published c)
    (return_release_mode c) (keeper_count c) (needs_exception_variables c)
    v (constants c).

Definition set_constants v (c : Context) : Context :=
  mkContext (labels c) (tmp_names c) (cleanup_names c) (true_target c)
    (false_target c) (loop_break c) (loop_continue c) (return_target c)
    (exception_escape c) (exception_not_occured c) (exception_published c)
    (return_release_mode c) (keeper_count c) (needs_exception_variables c)
    (current_source_ref c) v.

(** A context as it is when a body starts to be compiled. *)
Definition initial_context : Context :=
  mkContext ∅ ∅ [] NoTarget NoTarget NoTarget NoTarget NoTarget NoTarget
    NoTarget false false 0 false None [].

Definition initial_state : State :=
  mkState initial_context [] [] ∅ [] [].

(** [emit(line)]: the collector appends to its [codes]. *)
Definition emit (c : code) : M unit :=
  modify (with_codes (fun cs => cs ++ [c])).

(** Modelled from the spec: "Label: symbolic jump target, scope-unique,
    allocated per Context".  The label is the name it is asked for with a
    running number. *)
Definition allocateLabel (name : string) : M target :=
  s <- get ;;
  let n := S (default 0 (labels (context s) !! name)) in
  modify (with_context (set_labels (<[name := n]> (labels (context s))))) ;;
  ret (LabelTarget (name +:+ "_" +:+ decimal n)).

(** Modelled from the spec: "Temp Name: ... Allocated monotonically per
    Context, never reused".  The declared storage type is not tracked. *)
Definition allocateTempName (base_name : string) : M string :=
  s <- get ;;
  let n := S (default 0 (tmp_names (context s) !! base_name)) in
  modify (with_context
            (set_tmp_names (<[base_name := n]> (tmp_names (context s))))) ;;
  ret ("tmp_" +:+ base_name +:+ "_" +:+ decimal n).

Definition getCleanupTempnames : M (list string) :=
  gets (fun s => cleanup_names (context s)).

Definition name_in (name : string) (l : list string) : bool :=
  existsb (String.eqb name) l.

Definition needsCleanup (tmp_name : string) : M bool :=
  gets (fun s => name_in tmp_name (cleanup_names (context s))).

Definition addCleanupTempName (tmp_name : string) : M unit :=
  modify (with_context
            (fun c => set_cleanup_names (cleanup_names c ++ [tmp_name]) c)).

(** Python's [list.remove]: the first occurrence. *)
Fixpoint remove_name (name : string) (l : list string) : list string :=
  match l with
  | [] => []
  | x :: l' => if String.eqb name x then l' else x :: remove_name name l'
  end.

Definition removeCleanupTempName (tmp_name : string) : M unit :=
  modify (with_context
            (fun c =>
               set_cleanup_names (remove_name tmp_name (cleanup_names c)) c)).

Definition getTrueBranchTarget : M target :=
  gets (fun s => true_target (context s)).
Definition getFalseBranchTarget : M target :=
  gets (fun s => false_target (context s)).
Definition setTrueBranchTarget (t : target) : M unit :=
  modify (with_context (set_true_target t)).
Definition setFalseBranchTarget (t : target) : M unit :=
  modify (with_context (set_false_target t)).

Definition getLoopBreakTarget : M target :=
  gets (fun s => loop_break (context s)).
Definition getLoopContinueTarget : M target :=
  gets (fun s => loop_continue (context s)).

(** [setLoopBreakTarget(label, name = None)]: with an indicator name the
    slot holds the pair. *)
Definition setLoopBreakTarget (t : target) (name : option string)
    : M unit :=
  modify (with_context
            (set_loop_break
               (match name with Some n => PairTarget t n | None => t end))).
Definition setLoopContinueTarget (t : target) (name : option string)
    : M unit :=
  modify (with_context
            (set_loop_continue
               (match name with Some n => PairTarget t n | None => t end))).

Definition getReturnTarget : M target :=
  gets (fun s => return_target (context s)).
Definition setReturnTarget (t : target) : M unit :=
  modify (with_context (set_return_target t)).

Definition getExceptionEscape : M target :=
  gets (fun s => exception_escape (context s)).
Definition setExceptionEscape (t : target) : M unit :=
  modify (with_context (set_exception_escape t)).

Definition getExceptionNotOccured : M target :=
  gets (fun s => exception_not_occured (context s)).
Definition setExceptionNotOccured (t : target) : M unit :=
  modify (with_context (set_exception_not_occured t)).

Definition isExceptionPublished : M bool :=
  gets (fun s => exception_published (context s)).
Definition setExceptionPublished (b : bool) : M unit :=
  modify (with_context (set_exception_published b)).

Definition getReturnReleaseMode : M bool :=
  gets (fun s => return_release_mode (context s)).
Definition setReturnReleaseMode (b : bool) : M unit :=
  modify (with_context (set_return_release_mode b)).

Definition getReturnValueName : M string := ret "tmp_return_value".

Definition markAsNeedsExceptionVariables : M unit :=
  modify (with_context (set_needs_exception_variables true)).

Definition setSourceReference (r : option source_ref) : M unit :=
  modify (with_context (set_current_source_ref r)).

(** The three keeper slots of a try/finally, numbered per context. *)
Definition getExceptionKeeperVariables : M (list string) :=
  s <- get ;;
  let n := S (keeper_count (context s)) in
  modify (with_context (set_keeper_count n)) ;;
  ret [ "exception_keeper_type_" +:+ decimal n;
        "exception_keeper_value_" +:+ decimal n;
        "exception_keeper_tb_" +:+ decimal n ].

(** The tree a constant is, runtime type and value. *)
Fixpoint constant_tree (c : constant) : gen_tree (Z + string) :=
  match c with
  | CNone => GenNode 0 []
  | CEllipsis => GenNode 1 []
  | CBool b => GenNode (if b then 2 else 3) []
  | CInt z => GenNode 4 [GenLeaf (inl z)]
  | CFloat bits => GenNode 5 [GenLeaf (inl bits)]
  | CStr s => GenNode 6 [GenLeaf (inr s)]
  | CTuple l => GenNode 7 (List.map constant_tree l)
  | CList l => GenNode 8 (List.map constant_tree l)
  | CDict l =>
      GenNode 9 (List.map
                   (fun kv => GenNode 0 [constant_tree (fst kv);
                                         constant_tree (snd kv)]) l)
  | CSet l => GenNode 10 (List.map constant_tree l)
  end.

(** Modelled from the spec: the name of a constant, which the missing
    module computes from the constant alone: "Constant identifiers are a
    pure function of (type, deep value)".  Here it is the decimal number
    of the constant's tree. *)
Definition namifyConstant (c : constant) : string :=
  NilEmpty.string_of_uint (Pos.to_uint (encode (constant_tree c))).

(** Modelled from the spec: [context.getConstantCode(constant)], the
    [intern] operation of the constant pool: "returns a stable identifier
    for any literal comparable by deep structural equality".  The pool is
    the dictionary from [HashableConstant] keys to identifiers that
    [ConstantCodes.getConstantsInitCode] iterates over. *)
Definition getConstantCode (constant : constant) : M string :=
  s <- get ;;
  let key := HashableConstant.HashableConstant constant in
  match HashableConstant.lookup key (constants (context s)) with
  | Some identifier => ret identifier
  | None =>
      let identifier := "const_" +:+ namifyConstant constant in
      modify (with_context
                (set_constants
                   (HashableConstant.insert_new key identifier
                      (constants (context s))))) ;;
      ret identifier
  end.

End Contexts.

(** ** [ConstantCodes.py] *)

Module ConstantCodes.
Import Constants Contexts.

(** The [for ... else] loops of [getConstantAccessC] over the values of a
    list or tuple: is one of them mutable? *)
Definition needs_deep_values (values : list constant) : bool :=
  existsb isMutable values.

(** The loop over the items of a dictionary, which asserts of each key
    it reaches that it is not mutable and stops at the first mutable
    value. *)
Fixpoint needs_deep_items (items : list (constant * constant)) : M bool :=
  match items with
  | [] => ret false
  | (key, value) :: items' =>
      assert (negb (isMutable key)) "not isMutable(key)" ;;
      if isMutable value then ret true else needs_deep_items items'
  end.

(** [getConstantAccessC(to_name, constant, emit, context)]. *)
Definition getConstantAccessC (to_name : string) (constant : constant)
    : M unit :=
  code_ref <-
    match constant with
    | CDict items =>
        code <-
          (if truth constant then
             needs_deep <- needs_deep_items items ;;
             identifier <- getConstantCode constant ;;
             if (needs_deep : bool) then
               ret ("DEEP_COPY( " +:+ identifier +:+ " )")
             else
               ret ("PyDict_Copy( " +:+ identifier +:+ " )")
           else ret "PyDict_New()") ;;
        ret (code, true)
    | CSet _ =>
        code <-
          (if truth constant then
             identifier <- getConstantCode constant ;;
             ret ("PySet_New( " +:+ identifier +:+ " )")
           else ret "PySet_New( NULL )") ;;
        ret (code, true)
    | CList values =>
        code <-
          (if truth constant then
             let needs_deep := needs_deep_values values in
             identifier <- getConstantCode constant ;;
             if needs_deep then
               ret ("DEEP_COPY( " +:+ identifier +:+ " )")
             else
               ret ("LIST_COPY( " +:+ identifier +:+ " )")
           else ret "PyList_New( 0 )") ;;
        ret (code, true)
    | CTuple values =>
        let needs_deep := needs_deep_values values in
        identifier <- getConstantCode constant ;;
        if needs_deep then
          ret ("DEEP_COPY( " +:+ identifier +:+ " )", true)
        else
          ret (identifier, false)
    | _ =>
        identifier <- getConstantCode constant ;;
        ret (identifier, false)
    end ;;
  emit (Line (to_name +:+ " = " +:+ fst code_ref +:+ ";")) ;;
  when (snd code_ref) (addCleanupTempName to_name).

End ConstantCodes.

(** ** The syntax tree handed to code generation *)

Module Nodes.
Import Constants.

(** What [statement.parent.getParent()] is for a statement: the node that
    owns the statement sequence the statement is in. *)
Inductive owner : Type :=
| OwnerMissing
| OwnerExpression
| OwnerOther.

Record expression_info : Type := ExpressionInfo {
  expression_id : node_id;
  expression_ref : source_ref
}.

Record statement_info : Type := StatementInfo {
  statement_id : node_id;
  statement_ref : source_ref;
  statement_owner : owner;
  needsLineNumber : bool
}.

(** The static facts of a statement sequence that code generation asks
    for; they are computed before code generation and trusted by it. *)
Record sequence_info : Type := SequenceInfo {
  mayRaiseException : bool;
  mayReturn : bool;
  mayBreak : bool;
  mayContinue : bool;
  isStatementAborting : bool
}.

(** The static facts of a try/finally node. *)
Record try_finally_info : Type := TryFinallyInfo {
  needsContinueHandling : bool;
  needsBreakHandling : bool;
  needsReturnHandling : bool;
  needsExceptionPublish : bool;
  needsReturnValueRelease : bool;
  provider_is_generator_function : bool
}.

(** The static facts of a try/except node. *)
Record try_except_info : Type := TryExceptInfo {
  public_exc : bool;
  handler_needsExceptionPublish : bool
}.

(** The node kinds embedded.  Every kind keeps the operands its lowering
    rule reads. *)
Inductive expression : Type :=
| ExpressionConstantRef (info : expression_info) (constant : constant)
| ExpressionTempVariableRef (info : expression_info) (variable : string)
| ExpressionBuiltinIter1 (info : expression_info) (value : expression)
| ExpressionBuiltinNext1 (info : expression_info) (value : expression)
| ExpressionComparison (info : expression_info) (comparator : string)
                       (left right : expression)
| ExpressionOperationNOT (info : expression_info) (operand : expression)
| ExpressionConditional (info : expression_info)
                        (condition yes no : expression)
| ExpressionBuiltinHasattr (info : expression_info)
                           (lookup_source attribute : expression)
| ExpressionBuiltinIsinstance (info : expression_info)
                              (instance cls : expression)
| ExpressionTryFinally (info : expression_info) (facts : try_finally_info)
                       (tried : sequence) (final : option sequence)
                       (value : expression)
with statement : Type :=
| StatementAssignmentVariable (info : statement_info) (variable : string)
                              (source : expression)
| StatementExpressionOnly (info : statement_info) (value : expression)
| StatementReturn (info : statement_info) (value : expression)
| StatementConditional (info : statement_info) (condition : expression)
                       (yes : sequence) (no : option sequence)
| StatementTryExcept (info : statement_info) (facts : try_except_info)
                     (tried : sequence) (handling : option sequence)
| StatementTryFinally (info : statement_info) (facts : try_finally_info)
                      (tried : sequence) (final : option sequence)
| StatementLoop (info : statement_info) (aborting : bool)
                (body : option sequence)
| StatementBreakLoop (info : statement_info)
| StatementContinueLoop (info : statement_info)
| StatementRaiseException (info : statement_info)
                          (exception_type : option expression)
with sequence : Type :=
| StatementsSequence (info : sequence_info) (statements : list statement).

Definition getExpressionInfo (e : expression) : expression_info :=
  match e with
  | ExpressionConstantRef i _ | ExpressionTempVariableRef i _
  | ExpressionBuiltinIter1 i _ | ExpressionBuiltinNext1 i _
  | ExpressionComparison i _ _ _ | ExpressionOperationNOT i _
  | ExpressionConditional i _ _ _ | ExpressionBuiltinHasattr i _ _
  | ExpressionBuiltinIsinstance i _ _ | ExpressionTryFinally i _ _ _ _ => i
  end.

Definition getStatementInfo (s : statement) : statement_info :=
  match s with
  | StatementAssignmentVariable i _ _ | StatementExpressionOnly i _
  | StatementReturn i _ | StatementConditional i _ _ _
  | StatementTryExcept i _ _ _ | StatementTryFinally i _ _ _
  | StatementLoop i _ _ | StatementBreakLoop i | StatementContinueLoop i
  | StatementRaiseException i _ => i
  end.

Definition getStatements (q : sequence) : list statement :=
  match q with StatementsSequence _ l => l end.

Definition getSequenceInfo (q : sequence) : sequence_info :=
  match q with StatementsSequence i _ => i end.

Definition isStatementBreakLoop (s : statement) : bool :=
  match s with StatementBreakLoop _ => true | _ => false end.

(** A raise statement with no exception type re-raises the exception
    being handled. *)
Definition isStatementReraiseException (s : statement) : bool :=
  match s with StatementRaiseException _ None => true | _ => false end.

End Nodes.

(** ** The [Generator] module *)

Module Generator.
Import Contexts.

(** Modelled from the spec: the functions of module [Generator] that the
    embedded part of [CodeGeneration.py] calls.  The module is not in the
    sources at hand.  Each function emits the piece of code that stands
    for its call, with the context targets it reads, and does the
    ownership bookkeeping the specification gives it: a support call
    releases the temporaries it is given ("any temp allocated during
    generation of a sub-expression must be fully resolved (consumed or
    released) before control returns to the caller") and registers the
    destination in the cleanup set when it owns a new reference. *)

Definition getGotoCode (t : target) : M unit := emit (Goto t).

Definition getLabelCode (t : target) : M unit := emit (LabelCode t).

Definition getErrorExitBoolCode (condition : string) : M unit :=
  escape <- getExceptionEscape ;;
  emit (ErrorExitBool condition escape).

Definition getBranchingCode (condition : string) : M unit :=
  t <- getTrueBranchTarget ;;
  f <- getFalseBranchTarget ;;
  emit (Branching condition t f).

Definition getReleaseCode (release_name : string) : M unit :=
  needs <- needsCleanup release_name ;;
  when needs
    (emit (Line ("Py_DECREF( " +:+ release_name +:+ " );")) ;;
     removeCleanupTempName release_name).

Fixpoint getReleaseCodes (release_names : list string) : M unit :=
  match release_names with
  | [] => ret tt
  | n :: l => getReleaseCode n ;; getReleaseCodes l
  end.

Definition getConditionCheckTrueCode (to_name value_name : string)
    : M unit :=
  emit (Line (to_name +:+ " = CHECK_IF_TRUE( " +:+ value_name +:+ " );")).

Definition getConditionCheckFalseCode (to_name value_name : string)
    : M unit :=
  emit (Line (to_name +:+ " = CHECK_IF_FALSE( " +:+ value_name +:+ " );")).

(** A test lowered to branch code: jumps to the true or the false target
    of the context. *)
Definition support_branch (entry : string) (args : list string) : M unit :=
  t <- getTrueBranchTarget ;;
  f <- getFalseBranchTarget ;;
  escape <- getExceptionEscape ;;
  emit (SupportBranch entry args t f escape) ;;
  getReleaseCodes args.

Definition getComparisonExpressionBoolCode (comparator : string)
    (left_name right_name : string) : M unit :=
  support_branch ("COMPARE_BOOL_" +:+ comparator) [left_name; right_name].

Definition getAttributeCheckBoolCode (source_name attr_name : string)
    : M unit :=
  support_branch "HAS_ATTRIBUTE" [source_name; attr_name].

Definition getBuiltinIsinstanceBoolCode (inst_name cls_name : string)
    : M unit :=
  support_branch "BUILTIN_ISINSTANCE_BOOL" [inst_name; cls_name].

(** A support call that computes a value into [to_name]. *)
Definition support_call (entry : string) (to_name : string)
    (args : list string) (ref_count : bool) : M unit :=
  escape <- getExceptionEscape ;;
  emit (Support entry to_name args escape) ;;
  getReleaseCodes args ;;
  when ref_count (addCleanupTempName to_name).

Definition getCAPIObjectCode (to_name capi : string)
    (arg_names : list string) (ref_count : bool) : M unit :=
  support_call capi to_name arg_names ref_count.

(** The rich comparisons give a new reference; identity, containment and
    exception matching give a shared truth value. *)
Definition rich_comparison (comparator : string) : bool :=
  name_in comparator ["Lt"; "LtE"; "Eq"; "NotEq"; "Gt"; "GtE"].

Definition getComparisonExpressionCode (to_name comparator : string)
    (left_name right_name : string) : M unit :=
  support_call ("COMPARE_" +:+ comparator) to_name [left_name; right_name]
    (rich_comparison comparator).

Definition getOperationCode (to_name operator : string)
    (arg_names : list string) : M unit :=
  support_call ("OPERATION_" +:+ operator) to_name arg_names
    (negb (String.eqb operator "Not")).

Definition getBuiltinNext1Code (to_name value : string) : M unit :=
  support_call "BUILTIN_NEXT1" to_name [value] true.

(** Reading a variable gives a reference that the variable keeps. *)
Definition getVariableAccessCode (to_name variable : string) : M unit :=
  escape <- getExceptionEscape ;;
  emit (Support "VARIABLE_ACCESS" to_name [variable] escape).

Definition getVariableAssignmentCode (tmp_name variable : string)
    : M unit :=
  owned <- needsCleanup tmp_name ;;
  emit (AssignVariable variable tmp_name owned).

(** The fused "advance the iterator or leave the loop" support call: on
    exhaustion it goes to the loop's break target, any other failure goes
    to the exception-escape target. *)
Definition getBuiltinLoopBreakNextCode (to_name value : string) : M unit :=
  break_target <- getLoopBreakTarget ;;
  escape <- getExceptionEscape ;;
  emit (LoopBreakNext to_name value break_target escape) ;;
  getReleaseCode value ;;
  addCleanupTempName to_name.

(** "return/break/continue inside the tried block set a boolean indicator
    and redirect to the finally-start label instead of jumping to their
    real target". *)
Definition goto_with_indicator (t : target) : M unit :=
  match t with
  | PairTarget l indicator =>
      emit (SetIndicator indicator true) ;; getGotoCode l
  | _ => getGotoCode t
  end.

Definition getLoopBreakCode : M unit :=
  t <- getLoopBreakTarget ;; goto_with_indicator t.

Definition getLoopContinueCode : M unit :=
  t <- getLoopContinueTarget ;; goto_with_indicator t.

Definition getReRaiseExceptionCode : M unit :=
  escape <- getExceptionEscape ;;
  emit (RaiseCode "RERAISE_EXCEPTION" [] escape).

Definition getRaiseExceptionWithTypeCode (raise_type_name : string)
    : M unit :=
  markAsNeedsExceptionVariables ;;
  escape <- getExceptionEscape ;;
  emit (RaiseCode "RAISE_EXCEPTION_WITH_TYPE" [raise_type_name] escape) ;;
  needs <- needsCleanup raise_type_name ;;
  when needs (removeCleanupTempName raise_type_name).

Definition getExceptionUnpublishedReleaseCode : M unit :=
  emit (GeneratorCode "getExceptionUnpublishedReleaseCode" []).

(** The line-number bookkeeping of the module is not modelled beyond the
    code it emits. *)
Definition getSetLineNumberCode (r : source_ref) : M unit :=
  emit (GeneratorCode "getSetLineNumberCode" [decimal r]).

Definition getLineNumberCode (name : string) : M unit :=
  emit (GeneratorCode "getLineNumberCode" [name]).

Definition getSetLineNumberCodeRaw (name : string) : M unit :=
  emit (GeneratorCode "getSetLineNumberCodeRaw" [name]).

Definition resetLineNumber : M unit := ret tt.
Definition pushLineNumberBranch : M unit := ret tt.
Definition popLineNumberBranch : M unit := ret tt.
Definition mergeLineNumberBranches : M unit := ret tt.

End Generator.

(** ** [CodeGeneration.py] *)

Module CodeGeneration.
Import Constants Nodes Contexts Generator.

Section Target.

(** [Utils.python_version], the version of the targeted runtime, and
    the table [PythonOperators.comparison_inversions]; both are
    declared outside the sources at hand. *)
Variable python_version : nat.
Variable comparison_inversions : list string.

(** [Tracing.printError("Problem with %r at %s" % (node, ref))]. *)
Definition printError (r : report) : M unit :=
  modify (with_errors (fun l => l ++ [r])).

(** [emit = Emission.SourceCodeCollector()]: emission goes to a new,
    empty collector; the codes of the collector in use so far are
    handed back. *)
Definition new_collector : M (list code) :=
  real_codes <- gets codes ;;
  modify (with_codes (fun _ => [])) ;;
  ret real_codes.

(** A local variable that is only bound on some paths. *)
Definition bound {A} (name : string) (v : option A) : M A :=
  match v with
  | Some a => ret a
  | None => raise (UnboundLocalError name)
  end.

Definition keeper_release_text (keepers : list string) : string :=
  let keeper_type := nth 0 keepers EmptyString in
  let keeper_value := nth 1 keepers EmptyString in
  let keeper_tb := nth 2 keepers EmptyString in
  "Py_XDECREF( " +:+ keeper_type +:+ " );" +:+ keeper_type +:+ " = NULL;"
  +:+ newline +:+
  "Py_XDECREF( " +:+ keeper_value +:+ " );" +:+ keeper_value
  +:+ " = NULL;" +:+ newline +:+
  "Py_XDECREF( " +:+ keeper_tb +:+ " );" +:+ keeper_tb +:+ " = NULL;".

Definition keeper_context_text (keepers : list string) : string :=
  let keeper_type := nth 0 keepers EmptyString in
  let keeper_value := nth 1 keepers EmptyString in
  let keeper_tb := nth 2 keepers EmptyString in
  "if ( " +:+ keeper_type +:+ " )" +:+ newline +:+
  "{" +:+ newline +:+
  "    NORMALIZE_EXCEPTION( &" +:+ keeper_type +:+ ", &" +:+ keeper_value
  +:+ ", &" +:+ keeper_tb +:+ " );" +:+ newline +:+
  "    PyException_SetContext( " +:+ keeper_value
  +:+ ", exception_value );" +:+ newline +:+
  "    Py_DECREF( exception_type );" +:+ newline +:+
  "    exception_type = " +:+ keeper_type +:+ ";" +:+ newline +:+
  "    // Py_XDECREF( exception_value );" +:+ newline +:+
  "    exception_value = " +:+ keeper_value +:+ ";" +:+ newline +:+
  "    Py_XDECREF( exception_tb );" +:+ newline +:+
  "    exception_tb = " +:+ keeper_tb +:+ ";" +:+ newline +:+
  newline +:+ newline +:+ "}" +:+ newline.

(** The jump that the re-dispatch makes to a saved loop target: when the
    saved target is the pair of an enclosing try/finally, its indicator
    is set first. *)
Definition redispatch_goto (old_target : target) : M unit :=
  match old_target with
  | PairTarget l indicator =>
      emit (SetIndicator indicator true) ;; getGotoCode l
  | _ => getGotoCode old_target
  end.

(** [generateTryFinallyCode], lines 3064 to 3135: what is emitted after
    the code of the final block.  The parameters are the local
    variables of the function that this part reads. *)
Definition generateTryFinallyCode_redispatch (facts : try_finally_info)
    (tried_block_may_raise : bool) (old_escape : target)
    (keepers : option (list string)) (old_return : target)
    (continue_name : option string) (old_continue_target : target)
    (break_name : option string) (old_break_target : target)
    : M target :=
  emit (Line "// Re-reraise as necessary after finally was executed.") ;;
  (if tried_block_may_raise && negb (needsExceptionPublish facts) then
     ks <- bound "keeper_type" keepers ;;
     emit (FinalHandlerReraise old_escape ks)
   else ret tt) ;;
  let generator_template :=
    if (330 <=? python_version)%nat then false
    else provider_is_generator_function facts in
  when (needsReturnHandling facts)
    (emit (FinalHandlerReturnReraise generator_template old_return)) ;;
  (if needsContinueHandling facts then
     name <- bound "continue_name" continue_name ;;
     emit (IfIndicator "// Continue if entered via continue." name) ;;
     redispatch_goto old_continue_target ;;
     emit EndBlock
   else ret tt) ;;
  (if needsBreakHandling facts then
     name <- bound "break_name" break_name ;;
     emit (IfIndicator "// Break if entered via break." name) ;;
     redispatch_goto old_break_target ;;
     emit EndBlock
   else ret tt) ;;
  final_end_target <- allocateLabel "finally_end" ;;
  getGotoCode final_end_target ;;
  ret final_end_target.

(** [generateTryFinallyCode], lines 3137 to 3221: the exits that the
    final block itself takes, and the end label. *)
Definition generateTryFinallyCode_exits (to_name : option string)
    (facts : try_finally_info) (tried_block_may_raise : bool)
    (final_block_may_raise final_block_may_return final_block_may_break
       : bool)
    (old_escape : target) (keepers : option (list string))
    (old_return old_break_target final_end_target : target) : M unit :=
  (if final_block_may_raise then
     escape <- getExceptionEscape ;;
     getLabelCode escape ;;
     (if tried_block_may_raise then
        ks <- bound "keeper_type" keepers ;;
        if (python_version <? 300)%nat then emit (Line (keeper_release_text ks))
        else emit (Line (keeper_context_text ks))
      else ret tt) ;;
     setExceptionEscape old_escape ;;
     escape' <- getExceptionEscape ;;
     getGotoCode escape'
   else ret tt) ;;
  (if final_block_may_return then
     return_target <- getReturnTarget ;;
     getLabelCode return_target ;;
     (if tried_block_may_raise && negb (needsExceptionPublish facts) then
        ks <- bound "keeper_type" keepers ;;
        emit (Line (keeper_release_text ks))
      else ret tt) ;;
     setReturnTarget old_return ;;
     return_target' <- getReturnTarget ;;
     getGotoCode return_target'
   else ret tt) ;;
  (if final_block_may_break then
     break_target <- getLoopBreakTarget ;;
     getLabelCode break_target ;;
     (if tried_block_may_raise && negb (needsExceptionPublish facts) then
        ks <- bound "keeper_type" keepers ;;
        emit (Line (keeper_release_text ks))
      else ret tt) ;;
     setLoopBreakTarget old_break_target None ;;
     break_target' <- getLoopBreakTarget ;;
     getGotoCode break_target'
   else ret tt) ;;
  getLabelCode final_end_target ;;
  match to_name with
  | Some _ => modify (with_temp_whitelist [])
  | None => ret tt
  end.

(** (Ghost.)  The statement boundary is recorded. *)
Definition record_boundary (statement : node_id) (checked : bool)
    : M unit :=
  cleanup <- getCleanupTempnames ;;
  whitelist <- gets _temp_whitelist ;;
  modify (with_boundaries
            (fun l => l ++ [Boundary statement cleanup whitelist checked])).

(** The check at the end of [generateStatementCode]: "Complain if any
    temporary was not dealt with yet."  It is made when the node that
    owns the statement's sequence is there and is not an expression. *)
Definition check_cleanup_at_statement_end (statement : node_id)
    (try_finally_candidate : owner) : M unit :=
  match try_finally_candidate with
  | OwnerOther =>
      cleanup <- getCleanupTempnames ;;
      whitelist <- gets _temp_whitelist ;;
      assert (match cleanup with [] => true | _ => false end
              || bool_decide (cleanup = whitelist))
             "context.getCleanupTempnames()" ;;
      record_boundary statement true
  | OwnerMissing | OwnerExpression => record_boundary statement false
  end.


(** The expressions, conditions and statements are lowered by functions
    that call each other; [fuel] bounds the depth of the calls, and
    [OutOfFuel] is the outcome when it does not suffice. *)
Fixpoint generateConditionCode (fuel : nat)
    (condition : option expression) (inverted allow_none : bool)
    {struct fuel} : M unit :=
  match fuel with
  | O => out_of_fuel
  | S fuel =>
      match condition with
      | None =>
          if allow_none then
            t <- getTrueBranchTarget ;; getGotoCode t
          else raise (AttributeError "isExpressionConstantRef")
      | Some (ExpressionConstantRef _ constant) =>
          let value := truth constant in
          let value := if inverted then negb value else value in
          if value then t <- getTrueBranchTarget ;; getGotoCode t
          else t <- getFalseBranchTarget ;; getGotoCode t
      | Some (ExpressionComparison _ comparator left_node right_node) =>
          left_name <- allocateTempName "compare_left" ;;
          generateExpressionCode fuel left_name (Some left_node) false ;;
          right_name <- allocateTempName "compare_right" ;;
          generateExpressionCode fuel right_name (Some right_node) false ;;
          assert (negb inverted
                  || negb (name_in comparator comparison_inversions))
                 "condition" ;;
          saved <-
            (if inverted then
               true_target <- getTrueBranchTarget ;;
               let false_target := BoundMethod "getFalseBranchTarget" in
               setTrueBranchTarget false_target ;;
               setFalseBranchTarget true_target ;;
               ret (Some (true_target, false_target))
             else ret None) ;;
          getComparisonExpressionBoolCode comparator left_name
            right_name ;;
          if inverted then
            targets <- bound "true_target" saved ;;
            setTrueBranchTarget (fst targets) ;;
            setFalseBranchTarget (snd targets)
          else ret tt
      | Some (ExpressionOperationNOT _ operand) =>
          saved <-
            (if negb inverted then
               true_target <- getTrueBranchTarget ;;
               false_target <- getFalseBranchTarget ;;
               setTrueBranchTarget false_target ;;
               setFalseBranchTarget true_target ;;
               ret (Some (true_target, false_target))
             else ret None) ;;
          generateConditionCode fuel (Some operand) false false ;;
          if negb inverted then
            targets <- bound "true_target" saved ;;
            setTrueBranchTarget (fst targets) ;;
            setFalseBranchTarget (snd targets)
          else ret tt
      | Some (ExpressionConditional _ condition expression_yes
                expression_no) =>
          old_true_target <- getTrueBranchTarget ;;
          old_false_target <- getFalseBranchTarget ;;
          select_true <- allocateLabel "select_true" ;;
          select_false <- allocateLabel "select_false" ;;
          select_end <- allocateLabel "select_end" ;;
          setTrueBranchTarget select_true ;;
          setFalseBranchTarget select_false ;;
          generateConditionCode fuel (Some condition) false false ;;
          setTrueBranchTarget old_true_target ;;
          setFalseBranchTarget old_false_target ;;
          getLabelCode select_true ;;
          generateConditionCode fuel (Some expression_yes) false false ;;
          getGotoCode select_end ;;
          getLabelCode select_false ;;
          generateConditionCode fuel (Some expression_no) false false ;;
          getLabelCode select_end
      | Some (ExpressionBuiltinHasattr _ lookup_source attribute) =>
          source_name <- allocateTempName "hasattr_source" ;;
          attr_name <- allocateTempName "hasattr_attr" ;;
          generateExpressionCode fuel source_name (Some lookup_source)
            false ;;
          generateExpressionCode fuel attr_name (Some attribute) false ;;
          getAttributeCheckBoolCode source_name attr_name
      | Some (ExpressionBuiltinIsinstance _ inst cls) =>
          assert (negb inverted) "not inverted" ;;
          inst_name <- allocateTempName "isinstance_inst" ;;
          cls_name <- allocateTempName "isinstance_cls" ;;
          generateExpressionCode fuel inst_name (Some inst) false ;;
          generateExpressionCode fuel cls_name (Some cls) false ;;
          getBuiltinIsinstanceBoolCode inst_name cls_name
      | Some condition =>
          condition_name <- allocateTempName "cond_value" ;;
          truth_name <- allocateTempName "cond_truth" ;;
          generateExpressionCode fuel condition_name (Some condition)
            false ;;
          (if inverted then
             getConditionCheckFalseCode truth_name condition_name
           else
             getConditionCheckTrueCode truth_name condition_name) ;;
          getErrorExitBoolCode (truth_name +:+ " == -1") ;;
          getReleaseCode condition_name ;;
          getBranchingCode (truth_name +:+ " == 1")
      end
  end

with generateComparisonExpressionCode (fuel : nat) (to_name : string)
    (comparator : string) (left_node right_node : expression)
    {struct fuel}
    : M unit :=
  match fuel with
  | O => out_of_fuel
  | S fuel =>
      left_name <- allocateTempName "compexpr_left" ;;
      right_name <- allocateTempName "compexpr_right" ;;
      generateExpressionCode fuel left_name (Some left_node) false ;;
      generateExpressionCode fuel right_name (Some right_node) false ;;
      getComparisonExpressionCode to_name comparator left_name right_name
  end

(** The local function [generateCAPIObjectCodeommon] of
    [_generateExpressionCode]. *)
with generateCAPIObjectCodeommon (fuel : nat) (to_name capi : string)
    (arg_desc : list (string * option expression)) (ref_count : bool)
    (none_null : bool) {struct fuel} : M unit :=
  match fuel with
  | O => out_of_fuel
  | S fuel =>
      arg_names <-
        (fix loop (arg_desc : list (string * option expression))
           : M (list string) :=
           match arg_desc with
           | [] => ret []
           | (arg_name, arg_expression) :: arg_desc' =>
               name <-
                 (match arg_expression, none_null with
                  | None, true => ret "NULL"
                  | _, _ =>
                      arg_name <- allocateTempName arg_name ;;
                      generateExpressionCode fuel arg_name arg_expression
                        false ;;
                      ret arg_name
                  end) ;;
               names <- loop arg_desc' ;;
               ret (name :: names)
           end) arg_desc ;;
      getCAPIObjectCode to_name capi arg_names ref_count
  end

with _generateExpressionCode (fuel : nat) (to_name : string)
    (expression : option expression) (allow_none : bool) {struct fuel}
    : M unit :=
  match fuel with
  | O => out_of_fuel
  | S fuel =>
      match expression with
      | None =>
          if allow_none then ret tt
          else raise (AttributeError "code_generated")
      | Some expression =>
          let info := getExpressionInfo expression in
          generated <- gets code_generated ;;
          assert (negb (bool_decide (expression_id info ∈ generated)))
                 "not hasattr(expression, 'code_generated')" ;;
          modify (with_code_generated
                    (fun g => {[ expression_id info ]} ∪ g)) ;;
          setSourceReference (Some (expression_ref info)) ;;
          match expression with
          | ExpressionTempVariableRef _ variable =>
              getVariableAccessCode to_name variable
          | ExpressionConstantRef _ constant =>
              ConstantCodes.getConstantAccessC to_name constant
          | ExpressionBuiltinNext1 _ value =>
              value_name <- allocateTempName "next1_arg" ;;
              generateExpressionCode fuel value_name (Some value) false ;;
              getBuiltinNext1Code to_name value_name
          | ExpressionOperationNOT _ operand =>
              arg_name <- allocateTempName "unary_arg" ;;
              generateExpressionCode fuel arg_name (Some operand) false ;;
              getOperationCode to_name "Not" [arg_name]
          | ExpressionComparison _ comparator left_node right_node =>
              generateComparisonExpressionCode fuel to_name comparator
                left_node right_node
          | ExpressionBuiltinIter1 _ value =>
              generateCAPIObjectCodeommon fuel to_name "MAKE_ITERATOR"
                [("iter_arg", Some value)] true false
          | ExpressionBuiltinIsinstance _ inst cls =>
              generateCAPIObjectCodeommon fuel to_name
                "BUILTIN_ISINSTANCE"
                [("isinstance_inst", Some inst);
                 ("isinstance_cls", Some cls)] false false
          | ExpressionBuiltinHasattr _ lookup_source attribute =>
              generateCAPIObjectCodeommon fuel to_name "BUILTIN_HASATTR"
                [("hasattr_value", Some lookup_source);
                 ("hasattr_attr", Some attribute)] false false
          | ExpressionConditional _ condition expression_yes
              expression_no =>
              true_target <- allocateLabel "condexpr_true" ;;
              false_target <- allocateLabel "condexpr_false" ;;
              end_target <- allocateLabel "condexpr_end" ;;
              old_true_target <- getTrueBranchTarget ;;
              old_false_target <- getFalseBranchTarget ;;
              setTrueBranchTarget true_target ;;
              setFalseBranchTarget false_target ;;
              generateConditionCode fuel (Some condition) false false ;;
              getLabelCode true_target ;;
              generateExpressionCode fuel to_name (Some expression_yes)
                false ;;
              needs_ref1 <- needsCleanup to_name ;;
              when needs_ref1 (removeCleanupTempName to_name) ;;
              real_codes <- new_collector ;;
              generateExpressionCode fuel to_name (Some expression_no)
                false ;;
              needs_ref2 <- needsCleanup to_name ;;
              buffered <- gets codes ;;
              modify (with_codes (fun _ => real_codes)) ;;
              (if needs_ref1 && negb needs_ref2 then
                 getGotoCode end_target ;;
                 getLabelCode false_target ;;
                 modify (with_codes (fun real => real ++ buffered)) ;;
                 emit (Line ("Py_INCREF( " +:+ to_name +:+ " );")) ;;
                 addCleanupTempName to_name
               else if negb needs_ref1 && needs_ref2 then
                 emit (Line ("Py_INCREF( " +:+ to_name +:+ " );")) ;;
                 getGotoCode end_target ;;
                 getLabelCode false_target ;;
                 modify (with_codes (fun real => real ++ buffered))
               else
                 getGotoCode end_target ;;
                 getLabelCode false_target ;;
                 modify (with_codes (fun real => real ++ buffered))) ;;
              getLabelCode end_target ;;
              setTrueBranchTarget old_true_target ;;
              setFalseBranchTarget old_false_target
          | ExpressionTryFinally _ facts tried final value =>
              generateTryFinallyCode fuel (Some to_name) facts tried
                final (Some value)
          end ;;
          setSourceReference None
      end
  end

with generateExpressionCode (fuel : nat) (to_name : string)
    (expression : option expression) (allow_none : bool) {struct fuel}
    : M unit :=
  match fuel with
  | O => out_of_fuel
  | S fuel =>
      on_exception
        (_generateExpressionCode fuel to_name expression allow_none)
        (printError
           match expression with
           | Some e =>
               Problem (expression_id (getExpressionInfo e))
                       (expression_ref (getExpressionInfo e))
           | None => ProblemNone
           end)
  end

with generateTryNextExceptStopIterationCode (fuel : nat)
    (facts : try_except_info) (tried : sequence)
    (handling : option sequence) {struct fuel} : M bool :=
  match fuel with
  | O => out_of_fuel
  | S fuel =>
      if public_exc facts then ret false else
      match handling with
      | None => ret false
      | Some handling =>
          match getStatements tried, getStatements handling with
          | [tried_statement], [handling_statement] =>
              match tried_statement with
              | StatementAssignmentVariable _ variable
                  (ExpressionBuiltinNext1 _ value) =>
                  match handling_statement with
                  | StatementConditional _ _ branch_yes branch_no =>
                      let yes_statements := getStatements branch_yes in
                      no_statements <-
                        match branch_no with
                        | Some branch_no => ret (getStatements branch_no)
                        | None => raise (AttributeError "getStatements")
                        end ;;
                      match yes_statements, no_statements with
                      | [yes_statement], [no_statement] =>
                          if negb (isStatementBreakLoop yes_statement)
                          then ret false
                          else if negb (isStatementReraiseException
                                          no_statement)
                                  || negb (isStatementReraiseException
                                             no_statement)
                          then ret false
                          else
                            tmp_name <- allocateTempName "next_source" ;;
                            generateExpressionCode fuel tmp_name
                              (Some value) false ;;
                            tmp_name2 <-
                              allocateTempName "assign_source" ;;
                            getBuiltinLoopBreakNextCode tmp_name2
                              tmp_name ;;
                            getVariableAssignmentCode tmp_name2
                              variable ;;
                            needs <- needsCleanup tmp_name2 ;;
                            when needs
                              (removeCleanupTempName tmp_name2) ;;
                            ret true
                      | _, _ => ret false
                      end
                  | _ => ret false
                  end
              | _ => ret false
              end
          | _, _ => ret false
          end
      end
  end

with generateTryExceptCode (fuel : nat) (facts : try_except_info)
    (tried_block : sequence) (handling_block : option sequence)
    {struct fuel} : M unit :=
  match fuel with
  | O => out_of_fuel
  | S fuel =>
      fused <- generateTryNextExceptStopIterationCode fuel facts
                 tried_block handling_block ;;
      if (fused : bool) then ret tt else
      assert (mayRaiseException (getSequenceInfo tried_block))
             "tried_block.mayRaiseException(BaseException)" ;;
      old_ok <- getExceptionNotOccured ;;
      no_exception <- allocateLabel "try_except_end" ;;
      setExceptionNotOccured no_exception ;;
      old_escape <- getExceptionEscape ;;
      handler <- allocateLabel "try_except_handler" ;;
      setExceptionEscape handler ;;
      emit (Line "// Tried block of try/except") ;;
      _generateStatementSequenceCode fuel (Some tried_block) false ;;
      pushLineNumberBranch ;;
      not_occured <- getExceptionNotOccured ;;
      getGotoCode not_occured ;;
      escape <- getExceptionEscape ;;
      getLabelCode escape ;;
      setExceptionEscape old_escape ;;
      setExceptionNotOccured old_ok ;;
      old_published <- isExceptionPublished ;;
      setExceptionPublished (handler_needsExceptionPublish facts) ;;
      emit (Line "// Exception handler of try/except") ;;
      _generateStatementSequenceCode fuel handling_block true ;;
      (match handling_block with
       | Some block =>
           when (isStatementAborting (getSequenceInfo block))
             getExceptionUnpublishedReleaseCode
       | None => ret tt
       end) ;;
      when (negb (handler_needsExceptionPublish facts))
        (emit (Line ("Py_DECREF( exception_type );" +:+ newline +:+
                     "Py_XDECREF( exception_value );" +:+ newline +:+
                     "Py_XDECREF( exception_tb );" +:+ newline))) ;;
      getLabelCode no_exception ;;
      setExceptionPublished old_published ;;
      popLineNumberBranch
  end

with generateTryFinallyCode (fuel : nat) (to_name : option string)
    (facts : try_finally_info) (tried_block : sequence)
    (final_block : option sequence) (value : option expression)
    {struct fuel} : M unit :=
  match fuel with
  | O => out_of_fuel
  | S fuel =>
      (match to_name with
       | Some _ =>
           cleanup <- getCleanupTempnames ;;
           modify (with_temp_whitelist cleanup)
       | None => ret tt
       end) ;;
      old_escape <- getExceptionEscape ;;
      tried_handler_escape <- allocateLabel "try_finally_handler" ;;
      setExceptionEscape tried_handler_escape ;;
      handler_start_target <-
        (if needsContinueHandling facts || needsBreakHandling facts
            || needsReturnHandling facts
         then allocateLabel "try_finally_handler_start"
         else ret NoTarget) ;;
      continue_saved <-
        (if needsContinueHandling facts then
           continue_name <- allocateTempName "continue" ;;
           emit (SetIndicator continue_name false) ;;
           old_continue_target <- getLoopContinueTarget ;;
           setLoopContinueTarget handler_start_target
             (Some continue_name) ;;
           ret (Some (continue_name, old_continue_target))
         else ret None) ;;
      break_saved <-
        (if needsBreakHandling facts then
           break_name <- allocateTempName "break" ;;
           emit (SetIndicator break_name false) ;;
           old_break_target <- getLoopBreakTarget ;;
           setLoopBreakTarget handler_start_target (Some break_name) ;;
           ret (Some (break_name, old_break_target))
         else ret None) ;;
      return_saved <-
        (if needsReturnHandling facts then
           old_return <- getReturnTarget ;;
           setReturnTarget handler_start_target ;;
           ret (Some old_return)
         else ret None) ;;
      (match to_name with
       | Some to_name => emit (Line (to_name +:+ " = NULL;"))
       | None => ret tt
       end) ;;
      emit (Line "// Tried code") ;;
      _generateStatementSequenceCode fuel (Some tried_block) false ;;
      (match to_name with
       | Some to_name => generateExpressionCode fuel to_name value false
       | None => ret tt
       end) ;;
      when (needsReturnHandling facts && (330 <=? python_version)%nat)
        (emit (Line "tmp_return_value = NULL;")) ;;
      (match handler_start_target with
       | NoTarget => ret tt
       | _ => getLabelCode handler_start_target
       end) ;;
      let tried_block_may_raise :=
        mayRaiseException (getSequenceInfo tried_block) in
      keepers <-
        (if tried_block_may_raise then
           emit (Line "// Final block of try/finally") ;;
           if negb (needsExceptionPublish facts) then
             keepers <- getExceptionKeeperVariables ;;
             escape <- getExceptionEscape ;;
             emit (FinalHandlerStart false escape keepers) ;;
             ret (Some keepers)
           else
             escape <- getExceptionEscape ;;
             emit (FinalHandlerStart true escape []) ;;
             ret None
         else ret None) ;;
      setExceptionEscape old_escape ;;
      (if needsContinueHandling facts then
         saved <- bound "old_continue_target" continue_saved ;;
         setLoopContinueTarget (snd saved) None
       else ret tt) ;;
      (if needsBreakHandling facts then
         saved <- bound "old_break_target" break_saved ;;
         setLoopBreakTarget (snd saved) None
       else ret tt) ;;
      (if needsReturnHandling facts then
         old_return <- bound "old_return" return_saved ;;
         setReturnTarget old_return
       else ret tt) ;;
      old_return_value_release <- getReturnReleaseMode ;;
      setReturnReleaseMode (needsReturnValueRelease facts) ;;
      let final_info := option_map getSequenceInfo final_block in
      let final_block_may_raise :=
        match final_info with
        | Some i =>
            mayRaiseException i && negb (needsExceptionPublish facts)
        | None => false
        end in
      let final_block_may_return :=
        match final_info with Some i => mayReturn i | None => false end in
      let final_block_may_break :=
        match final_info with Some i => mayBreak i | None => false end in
      let final_block_may_continue :=
        match final_info with Some i => mayContinue i | None => false end
      in
      assert (negb final_block_may_continue)
             "not final_block_may_continue" ;;
      old_return <- getReturnTarget ;;
      old_break_target <- getLoopBreakTarget ;;
      old_continue_target <- getLoopContinueTarget ;;
      old_escape <-
        (match final_block with
         | Some block =>
             tried_lineno_name <- allocateTempName "tried_lineno" ;;
             getLineNumberCode tried_lineno_name ;;
             old_escape <-
               (if final_block_may_raise then
                  old_escape <- getExceptionEscape ;;
                  l <- allocateLabel "try_finally_handler_error" ;;
                  setExceptionEscape l ;;
                  ret old_escape
                else ret old_escape) ;;
             (if final_block_may_return then
                l <- allocateLabel "try_finally_handler_return" ;;
                setReturnTarget l
              else ret tt) ;;
             (if final_block_may_break then
                l <- allocateLabel "try_finally_handler_break" ;;
                setLoopBreakTarget l None
              else ret tt) ;;
             _generateStatementSequenceCode fuel (Some block) false ;;
             getSetLineNumberCodeRaw tried_lineno_name ;;
             ret old_escape
         | None =>
             assert (match to_name with Some _ => true | None => false end)
                    "to_name is not None" ;;
             ret old_escape
         end) ;;
      setReturnReleaseMode old_return_value_release ;;
      final_end_target <-
        generateTryFinallyCode_redispatch facts tried_block_may_raise
          old_escape keepers old_return
          (option_map fst continue_saved) old_continue_target
          (option_map fst break_saved) old_break_target ;;
      generateTryFinallyCode_exits to_name facts tried_block_may_raise
        final_block_may_raise final_block_may_return
        final_block_may_break old_escape keepers old_return
        old_break_target final_end_target
  end

with generateRaiseCode (fuel : nat) (exception_type : option expression)
    {struct fuel} : M unit :=
  match fuel with
  | O => out_of_fuel
  | S fuel =>
      markAsNeedsExceptionVariables ;;
      match exception_type with
      | None => getReRaiseExceptionCode
      | Some _ =>
          raise_type_name <- allocateTempName "raise_type" ;;
          generateExpressionCode fuel raise_type_name exception_type
            false ;;
          getRaiseExceptionWithTypeCode raise_type_name
      end
  end

with generateBranchCode (fuel : nat) (condition : expression)
    (branch_yes : sequence) (branch_no : option sequence) {struct fuel}
    : M unit :=
  match fuel with
  | O => out_of_fuel
  | S fuel =>
      true_target <- allocateLabel "branch_yes" ;;
      false_target <- allocateLabel "branch_no" ;;
      end_target <- allocateLabel "branch_end" ;;
      old_true_target <- getTrueBranchTarget ;;
      old_false_target <- getFalseBranchTarget ;;
      setTrueBranchTarget true_target ;;
      setFalseBranchTarget false_target ;;
      generateConditionCode fuel (Some condition) false false ;;
      setTrueBranchTarget old_true_target ;;
      setFalseBranchTarget old_false_target ;;
      getLabelCode true_target ;;
      pushLineNumberBranch ;;
      _generateStatementSequenceCode fuel (Some branch_yes) false ;;
      popLineNumberBranch ;;
      match branch_no with
      | Some _ =>
          getGotoCode end_target ;;
          getLabelCode false_target ;;
          pushLineNumberBranch ;;
          _generateStatementSequenceCode fuel branch_no false ;;
          popLineNumberBranch ;;
          mergeLineNumberBranches ;;
          getLabelCode end_target
      | None => getLabelCode false_target
      end
  end

with generateLoopCode (fuel : nat) (aborting : bool)
    (loop_body : option sequence) {struct fuel} : M unit :=
  match fuel with
  | O => out_of_fuel
  | S fuel =>
      loop_start_label <- allocateLabel "loop_start" ;;
      loop_end_label <-
        (if negb aborting then allocateLabel "loop_end"
         else ret NoTarget) ;;
      getLabelCode loop_start_label ;;
      resetLineNumber ;;
      old_loop_break <- getLoopBreakTarget ;;
      old_loop_continue <- getLoopContinueTarget ;;
      setLoopBreakTarget loop_end_label None ;;
      setLoopContinueTarget loop_start_label None ;;
      _generateStatementSequenceCode fuel loop_body true ;;
      setLoopBreakTarget old_loop_break None ;;
      setLoopContinueTarget old_loop_continue None ;;
      getErrorExitBoolCode "CONSIDER_THREADING() == false" ;;
      getGotoCode loop_start_label ;;
      match loop_end_label with
      | NoTarget => ret tt
      | _ => getLabelCode loop_end_label
      end
  end

with generateReturnCode (fuel : nat) (value : expression) {struct fuel}
    : M unit :=
  match fuel with
  | O => out_of_fuel
  | S fuel =>
      return_value_name <- getReturnValueName ;;
      release <- getReturnReleaseMode ;;
      when release
        (emit (Line ("Py_DECREF( " +:+ return_value_name +:+ " );"))) ;;
      generateExpressionCode fuel return_value_name (Some value) false ;;
      needs <- needsCleanup return_value_name ;;
      (if (needs : bool) then removeCleanupTempName return_value_name
       else emit (Line ("Py_INCREF( " +:+ return_value_name +:+ " );"))) ;;
      t <- getReturnTarget ;;
      getGotoCode t
  end

with generateAssignmentVariableCode (fuel : nat) (variable : string)
    (value : expression) {struct fuel} : M unit :=
  match fuel with
  | O => out_of_fuel
  | S fuel =>
      tmp_name <- allocateTempName "assign_source" ;;
      generateExpressionCode fuel tmp_name (Some value) false ;;
      getVariableAssignmentCode tmp_name variable ;;
      needs <- needsCleanup tmp_name ;;
      when needs (removeCleanupTempName tmp_name)
  end

with generateStatementOnlyCode (fuel : nat) (value : expression)
    {struct fuel} : M unit :=
  match fuel with
  | O => out_of_fuel
  | S fuel =>
      tmp_name <- allocateTempName "unused" ;;
      generateExpressionCode fuel tmp_name (Some value) false ;;
      getReleaseCode tmp_name
  end

with _generateStatementCode (fuel : nat) (statement : statement)
    {struct fuel} : M unit :=
  match fuel with
  | O => out_of_fuel
  | S fuel =>
      match statement with
      | StatementAssignmentVariable _ variable source =>
          generateAssignmentVariableCode fuel variable source
      | StatementExpressionOnly _ value =>
          generateStatementOnlyCode fuel value
      | StatementReturn _ value => generateReturnCode fuel value
      | StatementConditional _ condition yes no =>
          generateBranchCode fuel condition yes no
      | StatementTryExcept _ facts tried handling =>
          generateTryExceptCode fuel facts tried handling
      | StatementTryFinally _ facts tried final =>
          generateTryFinallyCode fuel None facts tried final None
      | StatementLoop _ aborting body =>
          generateLoopCode fuel aborting body
      | StatementBreakLoop _ => getLoopBreakCode
      | StatementContinueLoop _ => getLoopContinueCode
      | StatementRaiseException _ exception_type =>
          generateRaiseCode fuel exception_type
      end
  end

with generateStatementCode (fuel : nat) (statement : statement)
    {struct fuel} : M unit :=
  match fuel with
  | O => out_of_fuel
  | S fuel =>
      on_exception
        (_generateStatementCode fuel statement ;;
         check_cleanup_at_statement_end
           (statement_id (getStatementInfo statement))
           (statement_owner (getStatementInfo statement)))
        (printError
           (Problem (statement_id (getStatementInfo statement))
                    (statement_ref (getStatementInfo statement))))
  end

with _generateStatementSequenceCode (fuel : nat)
    (statement_sequence : option sequence) (allow_none : bool)
    {struct fuel} : M unit :=
  match fuel with
  | O => out_of_fuel
  | S fuel =>
      match statement_sequence with
      | None =>
          if allow_none then ret tt
          else raise (AttributeError "getStatements")
      | Some statement_sequence =>
          (fix loop (statements : list statement) : M unit :=
             match statements with
             | [] => ret tt
             | statement :: statements' =>
                 let info := getStatementInfo statement in
                 when (needsLineNumber info)
                   (getSetLineNumberCode (statement_ref info)) ;;
                 generateStatementCode fuel statement ;;
                 loop statements'
             end) (getStatements statement_sequence)
      end
  end.


End Target.

End CodeGeneration.

(** ** The control flow of emitted code *)

Module Execution.

(** What the next advance of the iterator at hand gives. *)
Inductive advance : Type :=
| Advanced
| Exhausted
| Failed.

(** The part of the run-time state that the control flow of the emitted
    code depends on.  Modelled from the spec: "return/break/continue
    inside the tried block set a boolean indicator"; a pending exception
    "is held in dedicated keeper slots"; the return-value slot is set by
    a return that is under way. *)
Record Runtime : Type := mkRuntime {
  indicators : string -> bool;
  keeper_pending : bool;
  return_pending : bool;
  failing : string -> bool;
  iterator : advance
}.

Definition set_indicator (name : string) (value : bool) (r : Runtime)
    : Runtime :=
  mkRuntime (fun n => if String.eqb n name then value else indicators r n)
            (keeper_pending r) (return_pending r) (failing r) (iterator r).

(** What a run does that can be observed in the emitted code itself. *)
Inductive event : Type :=
| Checked (condition : string)
| Assigned (variable tmp_name : string).

Inductive status : Type :=
| Running (pc : nat) (r : Runtime) (trace : list event)
| Exited (t : target) (r : Runtime) (trace : list event)
| Completed (r : Runtime) (trace : list event)
| Stuck.

Fixpoint find_label (t : target) (program : list code) : option nat :=
  match program with
  | [] => None
  | LabelCode t' :: program' =>
      if bool_decide (t' = t) then Some 0
      else option_map S (find_label t program')
  | _ :: program' => option_map S (find_label t program')
  end.

(** The position after the first [EndBlock] at or after [pc]. *)
Fixpoint after_block (program : list code) (pc : nat) : nat :=
  match program with
  | [] => pc
  | c :: program' =>
      match pc with
      | O => match c with EndBlock => 1 | _ => S (after_block program' 0) end
      | S pc' => S (after_block program' pc')
      end
  end.

(** A jump: inside the program when it has the label, out of it
    otherwise.  A jump to the pair of a label and an indicator sets the
    indicator on the way. *)
Definition jump (program : list code) (t : target) (r : Runtime)
    (trace : list event) : status :=
  let '(t, r) :=
    match t with
    | PairTarget l indicator => (l, set_indicator indicator true r)
    | _ => (t, r)
    end in
  match find_label t program with
  | Some pc => Running pc r trace
  | None => Exited t r trace
  end.

(** One step.  Pieces of code whose effect lies in the support library
    have no meaning here. *)
Definition step (program : list code) (pc : nat) (r : Runtime)
    (trace : list event) : status :=
  match nth_error program pc with
  | None => Completed r trace
  | Some c =>
      match c with
      | Line _ | GeneratorCode _ _ | LabelCode _ | EndBlock =>
          Running (S pc) r trace
      | SetIndicator name value =>
          Running (S pc) (set_indicator name value r) trace
      | IfIndicator _ name =>
          if indicators r name then Running (S pc) r trace
          else Running (after_block program pc) r trace
      | Goto t => jump program t r trace
      | ErrorExitBool condition escape =>
          if failing r condition
          then jump program escape r (trace ++ [Checked condition])
          else Running (S pc) r (trace ++ [Checked condition])
      | FinalHandlerReraise exception_exit _ =>
          if keeper_pending r then jump program exception_exit r trace
          else Running (S pc) r trace
      | FinalHandlerReturnReraise _ parent_return_target =>
          if return_pending r then jump program parent_return_target r trace
          else Running (S pc) r trace
      | LoopBreakNext _ _ break_target escape =>
          match iterator r with
          | Advanced => Running (S pc) r trace
          | Exhausted => jump program break_target r trace
          | Failed => jump program escape r trace
          end
      | AssignVariable variable tmp_name _ =>
          Running (S pc) r (trace ++ [Assigned variable tmp_name])
      | _ => Stuck
      end
  end.

Fixpoint run (fuel : nat) (program : list code) (s : status) : status :=
  match fuel with
  | O => s
  | S fuel =>
      match s with
      | Running pc r trace => run fuel program (step program pc r trace)
      | _ => s
      end
  end.

Definition start (r : Runtime) : status := Running 0 r [].

Definition trace_of (s : status) : list event :=
  match s with
  | Running _ _ trace | Exited _ _ trace | Completed _ trace => trace
  | Stuck => []
  end.









End Execution.

(** ** [ReformulationComparisonExpressions.py] *)

Module ReformulationComparisonExpressions.

Section Reformulation.

(** The expressions of the source program that occur as operands of a
    comparison; [buildNode] lowers each of them to a node of its own. *)
Variable operand : Type.

(** A temporary variable of the provider. *)
Record temp_variable : Type := TempVariable {
  temp_scope : string;
  temp_name : string
}.

#[local] Instance temp_variable_eq_dec : EqDecision temp_variable.
Proof. solve_decision. Defined.

(** The nodes that the reformulation builds.  [Built] is the node
    [buildNode] makes of an operand; two such nodes are the same object
    when they have the same [object_id]. *)
Inductive node : Type :=
| Built (object_id : nat) (source : operand)
| ExpressionTempVariableRef (variable : temp_variable)
| ExpressionTryFinally (tried final : list statement) (expression : node)
| ExpressionComparison (comparator : string) (left right : node)
| ExpressionBoolAND (left right : node)
with statement : Type :=
| StatementAssignmentVariable (variable_ref : temp_variable)
                              (source : node).

(** The Python [ast.Compare] node: [left], [ops] and [comparators]. *)
Record Compare : Type := mkCompare {
  left : operand;
  ops : list string;
  comparators : list operand
}.

(** The provider's allocators. *)
Record Provider : Type := mkProvider {
  next_object : nat;
  temp_scopes : nat;
  temp_variables : list temp_variable
}.

Inductive built (A : Type) : Type :=
| Done (a : A) (p : Provider)
| Error (e : exn).
Arguments Done {A} a p.
Arguments Error {A} e.

Definition B (A : Type) : Type := Provider -> built A.

Definition unit_B {A} (a : A) : B A := fun p => Done a p.

Definition bind_B {A C} (m : B A) (f : A -> B C) : B C :=
  fun p => match m p with Done a p' => f a p' | Error e => Error e end.

Definition fail_B {A} (e : exn) : B A := fun _ => Error e.

(** Modelled from the spec: [Helpers.buildNode], which is not in the
    sources at hand, makes a new node of the operand. *)
Definition buildNode (source : operand) : B node :=
  fun p =>
    Done (Built (next_object p) source)
         (mkProvider (S (next_object p)) (temp_scopes p)
                     (temp_variables p)).

Fixpoint buildNodes (sources : list operand) : B (list node) :=
  match sources with
  | [] => unit_B []
  | x :: l =>
      bind_B (buildNode x) (fun n =>
      bind_B (buildNodes l) (fun ns => unit_B (n :: ns)))
  end.

(** Modelled from the spec: [provider.allocateTempScope] gives a scope
    name that has not been given before, [provider.allocateTempVariable]
    a variable of that scope: "a bounded-scope temporary". *)
Definition allocateTempScope (name : string) : B string :=
  fun p =>
    Done (name +:+ "_" +:+ decimal (S (temp_scopes p)))
         (mkProvider (next_object p) (S (temp_scopes p))
                     (temp_variables p)).

Definition allocateTempVariable (scope name : string) : B temp_variable :=
  fun p =>
    Done (TempVariable scope name)
         (mkProvider (next_object p) (temp_scopes p)
                     (temp_variables p ++ [TempVariable scope name])).

(** Python's [a is b] on nodes. *)
Definition is_same (a b : node) : bool :=
  match a, b with
  | Built i _, Built j _ => Nat.eqb i j
  | _, _ => false
  end.

(** Python's [rights.index(right)]; the nodes have no [__eq__], so the
    search compares objects. *)
Fixpoint index (right : node) (rights : list node) : option nat :=
  match rights with
  | [] => None
  | r :: rights' =>
      if is_same r right then Some 0
      else option_map S (index right rights')
  end.

(** Modelled from the spec: [buildAndNode] of
    [ReformulationBooleanExpressions], which is not in the sources at
    hand: "the resulting binary comparisons are combined with
    short-circuit and semantics". *)
Fixpoint buildAndNode (values : list node) : option node :=
  match values with
  | [] => None
  | [v] => Some v
  | v :: values' =>
      option_map (ExpressionBoolAND v) (buildAndNode values')
  end.

(** The local variables of the loop of [buildComparisonNode]. *)
Record locals : Type := mkLocals {
  left_node : node;
  result : list node;
  keeper_variable : option temp_variable;
  the_temp_scope : option string
}.

(** One round of the loop [for comparator, right in zip(node.ops,
    rights)]. *)
Definition round (rights : list node) (comparator : string)
    (right : node) (l : locals) : B locals :=
  bind_B
    (match result l with
     | [] => unit_B (left_node l, keeper_variable l)
     | _ =>
         match keeper_variable l with
         | Some k => unit_B (ExpressionTempVariableRef k, None)
         | None => fail_B (AttributeError "makeReference")
         end
     end) (fun '(left', keeper) =>
  bind_B
    (match last rights with
     | None => fail_B (AssertionError "rights[-1]")
     | Some last_right =>
         if negb (is_same right last_right) then
           bind_B
             (match the_temp_scope l with
              | None => allocateTempScope "comparison"
              | Some scope => unit_B scope
              end) (fun scope =>
           bind_B
             (match index right rights with
              | Some i =>
                  allocateTempVariable scope
                    ("value_" +:+ decimal (i + 2))
              | None => fail_B (AssertionError "rights.index(right)")
              end) (fun keeper_variable =>
           let tried :=
             [StatementAssignmentVariable keeper_variable right] in
           let final := [] in
           unit_B (ExpressionTryFinally tried final
                     (ExpressionTempVariableRef keeper_variable),
                   Some keeper_variable, Some scope)))
         else unit_B (right, keeper, the_temp_scope l)
     end) (fun '(right', keeper, scope) =>
  unit_B (mkLocals left'
            (result l ++ [ExpressionComparison comparator left' right'])
            keeper scope))).

Fixpoint rounds (rights : list node) (pairs : list (string * node))
    (l : locals) : B locals :=
  match pairs with
  | [] => unit_B l
  | (comparator, right_node) :: pairs' =>
      bind_B (round rights comparator right_node l)
             (rounds rights pairs')
  end.

(** Python's [zip]. *)
Fixpoint zip {X Y} (xs : list X) (ys : list Y) : list (X * Y) :=
  match xs, ys with
  | x :: xs', y :: ys' => (x, y) :: zip xs' ys'
  | _, _ => []
  end.

(** [buildComparisonNode(provider, node, source_ref)]. *)
Definition buildComparisonNode (ast_node : Compare) : B node :=
  if negb (Nat.eqb (length (comparators ast_node)) (length (ops ast_node))) then
    fail_B (AssertionError "len( node.comparators ) == len( node.ops )")
  else
    bind_B (buildNode (left ast_node)) (fun left =>
    bind_B (buildNodes (comparators ast_node)) (fun rights =>
    bind_B (rounds rights (zip (ops ast_node) rights)
              (mkLocals left [] None None)) (fun l =>
    match keeper_variable l with
    | Some _ => fail_B (AssertionError "keeper_variable is None")
    | None =>
        match buildAndNode (result l) with
        | Some n => unit_B n
        | None => fail_B (AssertionError "values")
        end
    end))).

(** *** What the nodes compute *)

(** The run-time behaviour of the program's values: the state the
    operands act on, what evaluating an operand does, what a comparison
    of two values does, and the truth test. *)
Variable value : Type.
Variable failure : Type.
Variable world : Type.
Variable eval_operand : operand -> world -> (value + failure) * world.
Variable compare : string -> value -> value -> world
                   -> (value + failure) * world.
Variable truth : value -> world -> (bool + failure) * world.

Definition temps : Type := temp_variable -> option value.

Definition assign (v : temp_variable) (x : value) (t : temps) : temps :=
  fun v' => if bool_decide (v' = v) then Some x else t v'.

Inductive answer : Type :=
| Value (x : value) (t : temps) (w : world)
| Raised (f : failure) (t : temps) (w : world)
| Unassigned (v : temp_variable).

(** Modelled from the spec: the meaning of the node kinds, which are
    declared outside the sources at hand.  A comparison evaluates its
    left operand, then its right operand, then compares; a try/finally
    expression runs the tried statements, evaluates its expression and
    runs the final statements; "and" evaluates its right operand only
    if the left one is true. *)
Fixpoint eval (n : node) (t : temps) (w : world) {struct n} : answer :=
  match n with
  | Built _ source =>
      match eval_operand source w with
      | (inl x, w') => Value x t w'
      | (inr f, w') => Raised f t w'
      end
  | ExpressionTempVariableRef v =>
      match t v with
      | Some x => Value x t w
      | None => Unassigned v
      end
  | ExpressionTryFinally tried final expression =>
      let exec :=
        fix exec (l : list statement) (t : temps) (w : world)
            (k : temps -> world -> answer) : answer :=
          match l with
          | [] => k t w
          | StatementAssignmentVariable v source :: l' =>
              match eval source t w with
              | Value x t' w' => exec l' (assign v x t') w' k
              | other => other
              end
          end in
      (* an exception of the tried part or of the expression passes
         the final statements before it goes on *)
      let finally (a : answer) : answer :=
        match a with
        | Value x t' w' => exec final t' w' (fun t'' w'' => Value x t'' w'')
        | Raised f t' w' =>
            exec final t' w' (fun t'' w'' => Raised f t'' w'')
        | Unassigned v => Unassigned v
        end in
      finally (exec tried t w (fun t' w' => eval expression t' w'))
  | ExpressionComparison comparator l r =>
      match eval l t w with
      | Value x t1 w1 =>
          match eval r t1 w1 with
          | Value y t2 w2 =>
              match compare comparator x y w2 with
              | (inl c, w3) => Value c t2 w3
              | (inr f, w3) => Raised f t2 w3
              end
          | other => other
          end
      | other => other
      end
  | ExpressionBoolAND l r =>
      match eval l t w with
      | Value x t1 w1 =>
          match truth x w1 with
          | (inl true, w2) => eval r t1 w2
          | (inl false, w2) => Value x t1 w2
          | (inr f, w2) => Raised f t1 w2
          end
      | other => other
      end
  end.

(** What the language gives for a chained comparison, following the
    words of the specification: every operand is evaluated once, from
    left to right; each comparison takes the value of the operand
    before it and the value of the operand after it; the evaluation
    stops at the first comparison that is not true, whose value is the
    result. *)
Inductive chain_answer : Type :=
| ChainValue (x : value) (w : world)
| ChainRaised (f : failure) (w : world).

Fixpoint chain_from (x : value) (rest : list (string * operand))
    (w : world) : chain_answer :=
  match rest with
  | [] => ChainValue x w
  | (comparator, source) :: rest' =>
      match eval_operand source w with
      | (inr f, w1) => ChainRaised f w1
      | (inl y, w1) =>
          match compare comparator x y w1 with
          | (inr f, w2) => ChainRaised f w2
          | (inl c, w2) =>
              match rest' with
              | [] => ChainValue c w2
              | _ =>
                  match truth c w2 with
                  | (inr f, w3) => ChainRaised f w3
                  | (inl false, w3) => ChainValue c w3
                  | (inl true, w3) => chain_from y rest' w3
                  end
              end
          end
      end
  end.

Definition chained_comparison (ast_node : Compare) (w : world)
    : chain_answer :=
  match eval_operand (left ast_node) w with
  | (inr f, w') => ChainRaised f w'
  | (inl x, w') => chain_from x (zip (ops ast_node) (comparators ast_node)) w'
  end.

Definition observable (a : answer) : option chain_answer :=
  match a with
  | Value x _ w => Some (ChainValue x w)
  | Raised f _ w => Some (ChainRaised f w)
  | Unassigned _ => None
  end.

(** *** The shape of the result, in the words of the specification *)

(** The nodes [buildNode] makes of a list of operands, one after the
    other. *)
Fixpoint built_from (b : nat) (sources : list operand) : list node :=
  match sources with
  | [] => []
  | x :: l => Built b x :: built_from (S b) l
  end.

(** The temporary that keeps the right operand of comparison [i]. *)
Definition keeper (scope : string) (i : nat) : temp_variable :=
  TempVariable scope ("value_" +:+ decimal (i + 2)).

(** A right operand that is kept for the comparison after it: it is
    assigned to the temporary, and the temporary is the value. *)
Definition kept (k : temp_variable) (right_node : node) : node :=
  ExpressionTryFinally [StatementAssignmentVariable k right_node] []
    (ExpressionTempVariableRef k).

(** "The first comparison uses the literal left and right operands;
    every subsequent comparison reuses the previous right operand via a
    reference to a bounded-scope temporary paired with a newly
    evaluated right operand".  Every right operand but the last is
    kept. *)
Fixpoint expected_comparisons (scope : string) (i : nat)
    (left_node : node) (pairs : list (string * node)) : list node :=
  match pairs with
  | [] => []
  | [(comparator, r)] => [ExpressionComparison comparator left_node r]
  | (comparator, r) :: pairs' =>
      ExpressionComparison comparator left_node (kept (keeper scope i) r)
      :: expected_comparisons scope (S i)
           (ExpressionTempVariableRef (keeper scope i)) pairs'
  end.

(** The operands of the source program that a node evaluates, in the
    order in which it reaches them. *)
Fixpoint operands_of (n : node) : list operand :=
  match n with
  | Built _ source => [source]
  | ExpressionTempVariableRef _ => []
  | ExpressionTryFinally tried final expression =>
      let of_statements :=
        fix of_statements (l : list statement) : list operand :=
          match l with
          | [] => []
          | StatementAssignmentVariable _ source :: l' =>
              operands_of source ++ of_statements l'
          end in
      of_statements tried ++ operands_of expression ++ of_statements final
  | ExpressionComparison _ l r => operands_of l ++ operands_of r
  | ExpressionBoolAND l r => operands_of l ++ operands_of r
  end.

End Reformulation.

Arguments Built {operand}.
Arguments ExpressionTempVariableRef {operand}.
Arguments ExpressionTryFinally {operand}.
Arguments ExpressionComparison {operand}.
Arguments ExpressionBoolAND {operand}.
Arguments StatementAssignmentVariable {operand}.
Arguments mkCompare {operand}.
Arguments left {operand}.
Arguments ops {operand}.
Arguments comparators {operand}.
Arguments Done {A}.
Arguments Error {A}.
Arguments buildNode {operand}.
Arguments buildNodes {operand}.
Arguments buildAndNode {operand}.
Arguments buildComparisonNode {operand}.
Arguments rounds {operand}.
Arguments round {operand}.
Arguments index {operand}.
Arguments is_same {operand}.
Arguments mkLocals {operand}.
Arguments left_node {operand}.
Arguments result {operand}.
Arguments keeper_variable {operand}.
Arguments the_temp_scope {operand}.
Arguments eval {operand value failure world}.
Arguments chain_from {operand value failure world}.
Arguments chained_comparison {operand value failure world}.
Arguments observable {value failure world}.
Arguments Value {value failure world}.
Arguments Raised {value failure world}.
Arguments Unassigned {value failure world}.
Arguments ChainValue {value failure world}.
Arguments ChainRaised {value failure world}.
Arguments assign {value}.
Arguments built_from {operand}.
Arguments kept {operand}.
Arguments expected_comparisons {operand}.
Arguments operands_of {operand}.

(** An instance for [a < b < c]: an operand is a pair of its position in
    the source and its value, the world is the list of the positions
    evaluated so far, and a comparison gives 1 or 0. *)
Definition trace_operand (e : nat * nat) (w : list nat)
    : (nat + unit) * list nat :=
  (inl (snd e), w ++ [fst e]).

Definition trace_compare (c : string) (x y : nat) (w : list nat)
    : (nat + unit) * list nat :=
  (inl (if Nat.ltb x y then 1 else 0), w).

Definition trace_truth (x : nat) (w : list nat)
    : (bool + unit) * list nat :=
  (inl (negb (Nat.eqb x 0)), w).

(** [5 < 3 < 9]. *)
Definition a_lt_b_lt_c : Compare (nat * nat) :=
  mkCompare (0, 5) ["Lt"; "Lt"] [(1, 3); (2, 9)].

End ReformulationComparisonExpressions.

(** * What the statements about the code are written with *)

Module Properties.
Import Constants Nodes Contexts Generator CodeGeneration Execution.
Import ConstantCodes.

(** ** The re-dispatch after a final block *)





(** From [s] to [s'] the pieces [l] were emitted, and nothing else
    happened to the context. *)
Definition emits (s s' : State) (l : list code) : Prop :=
  codes s' = codes s ++ l /\ context s' = context s.



(** ** Generating an expression twice *)


(** The [code_generated] markers only grow. *)
Definition grows (s s' : State) : Prop :=
  code_generated s ⊆ code_generated s'.

(** Whatever its outcome, [m] takes a state to one that [R] relates to
    it. *)
Definition keeps (R : State -> State -> Prop) {A} (m : M A) : Prop :=
  forall s, match m s with
            | Ok _ s' | Raise _ s' => R s s'
            | OutOfFuel => True
            end.

Definition all_keep (R : State -> State -> Prop)
    (python_version : nat) (comparison_inversions : list string)
    (fuel : nat) : Prop :=
  (forall c i a, keeps R (generateConditionCode python_version
                            comparison_inversions fuel c i a)) /\
  (forall t c l r, keeps R (generateComparisonExpressionCode python_version
                              comparison_inversions fuel t c l r)) /\
  (forall t c d r n, keeps R (generateCAPIObjectCodeommon python_version
                                comparison_inversions fuel t c d r n)) /\
  (forall t e a, keeps R (_generateExpressionCode python_version
                            comparison_inversions fuel t e a)) /\
  (forall t e a, keeps R (generateExpressionCode python_version
                            comparison_inversions fuel t e a)) /\
  (forall f t h, keeps R (generateTryNextExceptStopIterationCode
                            python_version comparison_inversions fuel
                            f t h)) /\
  (forall f t h, keeps R (generateTryExceptCode python_version
                            comparison_inversions fuel f t h)) /\
  (forall t f b c v, keeps R (generateTryFinallyCode python_version
                                comparison_inversions fuel t f b c v)) /\
  (forall e, keeps R (generateRaiseCode python_version
                        comparison_inversions fuel e)) /\
  (forall c y n, keeps R (generateBranchCode python_version
                            comparison_inversions fuel c y n)) /\
  (forall a b, keeps R (generateLoopCode python_version
                          comparison_inversions fuel a b)) /\
  (forall v, keeps R (generateReturnCode python_version
                        comparison_inversions fuel v)) /\
  (forall x v, keeps R (generateAssignmentVariableCode python_version
                          comparison_inversions fuel x v)) /\
  (forall v, keeps R (generateStatementOnlyCode python_version
                        comparison_inversions fuel v)) /\
  (forall s, keeps R (_generateStatementCode python_version
                        comparison_inversions fuel s)) /\
  (forall s, keeps R (generateStatementCode python_version
                        comparison_inversions fuel s)) /\
  (forall q a, keeps R (_generateStatementSequenceCode python_version
                          comparison_inversions fuel q a)).

Definition breaking_loop_body : option sequence :=
  Some (StatementsSequence (SequenceInfo false false true false false)
          [StatementBreakLoop (StatementInfo 2 11 OwnerOther false)]).



(** ** Constants *)


(** The use of constant [c] for [to_name] emits one assignment, of the
    pooled identifier wrapped by [wrap]; [to_name] owns a reference
    afterwards when [owned]. *)
Definition access_emitted (to_name : string) (c : constant)
    (wrap : string -> string) (owned : bool) (s : State) : Prop :=
  exists identifier s1 s',
    getConstantCode c s = Ok identifier s1 /\
    getConstantAccessC to_name c s = Ok tt s' /\
    codes s' =
      codes s ++ [Line (to_name +:+ " = " +:+ wrap identifier +:+ ";")] /\
    cleanup_names (context s') =
      cleanup_names (context s) ++ (if owned then [to_name] else []).

Definition alias (identifier : string) : string := identifier.
Definition deep_copy (identifier : string) : string :=
  "DEEP_COPY( " +:+ identifier +:+ " )".
Definition list_copy (identifier : string) : string :=
  "LIST_COPY( " +:+ identifier +:+ " )".
Definition dict_copy (identifier : string) : string :=
  "PyDict_Copy( " +:+ identifier +:+ " )".
Definition set_copy (identifier : string) : string :=
  "PySet_New( " +:+ identifier +:+ " )".

Definition keys_immutable (items : list (constant * constant)) : bool :=
  forallb (fun kv => negb (isMutable (fst kv))) items.
Definition some_value_mutable (items : list (constant * constant)) : bool :=
  existsb (fun kv => isMutable (snd kv)) items.

(** ** Loops *)

Definition checkpoint : string := "CONSIDER_THREADING() == false".

(** [while True: continue]. *)
Definition spinning_loop : statement :=
  StatementLoop (StatementInfo 1 10 OwnerOther false) false
    (Some (StatementsSequence (SequenceInfo false false false true true)
             [StatementContinueLoop (StatementInfo 2 11 OwnerOther false)])).

Definition spinning_loop_code : list code :=
  [LabelCode (LabelTarget "loop_start_1");
   Goto (LabelTarget "loop_start_1");
   ErrorExitBool checkpoint NoTarget;
   Goto (LabelTarget "loop_start_1");
   LabelCode (LabelTarget "loop_end_1")].

(** ** The fused advance of an iterator *)






(** ** Conditional expressions *)

Definition incref (to_name : string) : code :=
  Line ("Py_INCREF( " +:+ to_name +:+ " );").

(** [to_name] owns a reference: it is in the cleanup set. *)
Definition owns (to_name : string) (s : State) : bool :=
  name_in to_name (cleanup_names (context s)).

(** [[1] if flag else other]. *)
Definition pick_list_or_variable : expression :=
  ExpressionConditional (ExpressionInfo 1 30)
    (ExpressionTempVariableRef (ExpressionInfo 2 30) "flag")
    (ExpressionConstantRef (ExpressionInfo 3 30) (CList [CInt 1]))
    (ExpressionTempVariableRef (ExpressionInfo 4 30) "other").

(** ** Statement boundaries *)

Definition good_boundary (b : boundary) : Prop :=
  boundary_checked b = true ->
  boundary_cleanup b = [] \/ boundary_cleanup b = boundary_whitelist b.

(** The log of boundaries grew by good entries only. *)
Definition logs (s s' : State) : Prop :=
  exists new,
    boundaries s' = boundaries s ++ new /\ List.Forall good_boundary new.




(** ** Inverted comparisons *)

Definition inversions : list string :=
  ["Is"; "IsNot"; "In"; "NotIn"; "Lt"; "GtE"; "Eq"; "NotEq"; "Gt"; "LtE"].

(** [caught exception_match expected], a comparison outside the table. *)
Definition exception_matches : expression :=
  ExpressionComparison (ExpressionInfo 1 40) "exception_match"
    (ExpressionTempVariableRef (ExpressionInfo 2 40) "caught")
    (ExpressionTempVariableRef (ExpressionInfo 3 40) "expected").

Definition in_branch : State :=
  with_context (set_true_target (LabelTarget "branch_yes_1"))
    (with_context (set_false_target (LabelTarget "branch_no_1"))
       initial_state).

End Properties.

(** * Constants: the pool and the use sites *)

Module ConstantFacts.
Import Constants Contexts ConstantCodes Properties.













Import ConstantCodes.


Lemma getConstantCode_total c s :
  exists identifier s1, getConstantCode c s = Ok identifier s1 /\
    codes s1 = codes s /\ cleanup_names (context s1) = cleanup_names (context s).
Proof.
  unfold getConstantCode, bind, get.
  destruct (HashableConstant.lookup _ _); unfold ret, modify; simpl; eauto 6.
Qed.

Lemma needs_deep_items_spec items s :
  keys_immutable items = true ->
  needs_deep_items items s = Ok (some_value_mutable items) s.
Proof.
  induction items as [|[k v] items IH]; simpl; [reflexivity|].
  intros H. apply andb_true_iff in H as [Hk Hi].
  unfold bind, assert. rewrite Hk. unfold ret. destruct (isMutable v); simpl; auto.
Qed.

Ltac access_tac c s :=
  let identifier := fresh "identifier" in
  let s1 := fresh "s1" in
  let H := fresh "H" in
  let Hc := fresh "Hc" in
  let Hl := fresh "Hl" in
  destruct (getConstantCode_total c s) as (identifier & s1 & H & Hc & Hl);
  exists identifier, s1; eexists; split; [exact H|];
  unfold getConstantAccessC, bind, truth, needs_deep_values;
  rewrite ?needs_deep_items_spec by assumption;
  rewrite ?H;
  repeat match goal with
         | E : existsb _ _ = _ |- _ => rewrite E
         | E : some_value_mutable _ = _ |- _ => rewrite E
         end;
  cbn [fst snd when ret emit modify addCleanupTempName bind existsb isMutable orb];
  (split; [reflexivity|]);
  cbn [codes context cleanup_names with_codes with_context set_cleanup_names];
  rewrite ?Hc, ?Hl, ?app_nil_r; split; reflexivity.

(** C4, as the code has it: a constant that is no container, and a tuple
    without a mutable element, is used by its pooled identifier, with no
    copy and no reference taken; a tuple or list with a mutable element,
    and a dictionary with a mutable value, is used through [DEEP_COPY];
    a non-empty list without a mutable element is used through
    [LIST_COPY], such a dictionary through [PyDict_Copy] and a non-empty
    set through [PySet_New]; each copy owns its reference.  For
    [[1, 2, [3]]] the call is [DEEP_COPY]. *)
Theorem constant_access_alias_or_copy (to_name : string) (s : State) :
  (forall c,
      match c with
      | CDict _ | CSet _ | CList _ => False
      | CTuple l => existsb isMutable l = false
      | _ => True
      end -> access_emitted to_name c alias false s) /\
  (forall l, existsb isMutable l = true ->
      access_emitted to_name (CTuple l) deep_copy true s /\
      access_emitted to_name (CList l) deep_copy true s) /\
  (forall items, keys_immutable items = true -> some_value_mutable items = true ->
      access_emitted to_name (CDict items) deep_copy true s) /\
  (forall l, l <> [] -> existsb isMutable l = false ->
      access_emitted to_name (CList l) list_copy true s) /\
  (forall items, items <> [] -> keys_immutable items = true ->
      some_value_mutable items = false ->
      access_emitted to_name (CDict items) dict_copy true s) /\
  (forall l, l <> [] -> access_emitted to_name (CSet l) set_copy true s) /\
  access_emitted to_name (CList [CInt 1; CInt 2; CList [CInt 3]]) deep_copy true s.
Proof.
  repeat split.
  - intros c Hc. destruct c; try contradiction.
    + access_tac CNone s.
    + access_tac CEllipsis s.
    + access_tac (CBool b) s.
    + access_tac (CInt z) s.
    + access_tac (CFloat bits) s.
    + access_tac (CStr s0) s.
    + access_tac (CTuple elements) s.
  - access_tac (CTuple l) s.
  - destruct l as [|x l]; [discriminate|]. access_tac (CList (x :: l)) s.
  - intros items Hk Hv. destruct items as [|kv items]; [discriminate|].
    access_tac (CDict (kv :: items)) s.
  - intros l Hne Hm. destruct l as [|x l]; [contradiction|]. access_tac (CList (x :: l)) s.
  - intros items Hne Hk Hv. destruct items as [|kv items]; [contradiction|].
    access_tac (CDict (kv :: items)) s.
  - intros l Hne. destruct l as [|x l]; [contradiction|]. access_tac (CSet (x :: l)) s.
  - access_tac (CList [CInt 1; CInt 2; CList [CInt 3]]) s.
Qed.

(** C4 as it is written fails for [[1, 2]]: all its contents are immutable
    and its use is a copy call. *)
Lemma immutable_list_is_copied :
  exists s',
    getConstantAccessC "tmp_list" (CList [CInt 1; CInt 2]) initial_state = Ok tt s' /\
    codes s' = [Line "tmp_list = LIST_COPY( const_31165967978434019072 );"] /\
    cleanup_names (context s') = ["tmp_list"].
Proof. vm_compute. eexists. repeat split. Qed.

Lemma constant_access_alias_or_copy_witness :
  [CInt 1; CInt 2] <> [] /\ existsb isMutable [CInt 1; CInt 2] = false /\
  access_emitted "tmp_list" (CList [CInt 1; CInt 2]) list_copy true initial_state.
Proof.
  split; [discriminate|]. split; [reflexivity|].
  destruct (constant_access_alias_or_copy "tmp_list" initial_state)
    as (_ & _ & _ & Hcopy & _).
  apply Hcopy; [discriminate|reflexivity].
Defined.

End ConstantFacts.

(** * The reformulation of chained comparisons *)

Module ComparisonFacts.
Import ReformulationComparisonExpressions.

Section Facts.
Context {operand : Type}.

Lemma buildNodes_spec (sources : list operand) p :
  buildNodes sources p =
  Done (built_from (next_object p) sources)
    (mkProvider (next_object p + length sources) (temp_scopes p) (temp_variables p)).
Proof.
  revert p. induction sources as [|x l IH]; intros p; simpl.
  - unfold unit_B. destruct p; simpl. rewrite Nat.add_0_r. reflexivity.
  - unfold bind_B, buildNode. rewrite IH. simpl. unfold unit_B. do 2 f_equal. lia.
Qed.

Lemma last_built_from b (sources : list operand) x :
  last (built_from b (sources ++ [x])) = Some (Built (b + length sources) x).
Proof.
  revert b. induction sources as [|y l IH]; intros b; simpl.
  - rewrite Nat.add_0_r. reflexivity.
  - specialize (IH (S b)). destruct (built_from (S b) (l ++ [x])) eqn:E.
    + destruct l; discriminate.
    + rewrite <- E in *. simpl. rewrite last_cons, IH. simpl. do 2 f_equal. lia.
Qed.

Lemma index_built_from b (pre post : list operand) x :
  index (Built (b + length pre) x) (built_from b (pre ++ x :: post)) = Some (length pre).
Proof.
  revert b. induction pre as [|y l IH]; intros b; simpl.
  - rewrite Nat.add_0_r, Nat.eqb_refl. reflexivity.
  - replace (b + S (length l)) with (S b + length l) by lia.
    destruct (Nat.eqb_spec b (S b + length l)); [lia|].
    rewrite IH. reflexivity.
Qed.

Lemma last_built_from' b (l : list operand) :
  last (built_from b l) = option_map (Built (b + length l - 1)) (last l).
Proof.
  revert b. induction l as [|y l IH]; intros b; [reflexivity|].
  destruct l as [|z l].
  - simpl. do 2 f_equal. lia.
  - change (built_from b (y :: z :: l)) with (Built b y :: built_from (S b) (z :: l)).
    change (built_from (S b) (z :: l)) with (Built (S b) z :: built_from (S (S b)) l) at 1.
    rewrite last_cons_cons.
    change (Built (S b) z :: built_from (S (S b)) l) with (built_from (S b) (z :: l)).
    rewrite IH. rewrite last_cons_cons. simpl length.
    replace (S b + S (length l) - 1) with (b + S (S (length l)) - 1) by lia. reflexivity.
Qed.

Lemma zip_nil_iff {X Y} (xs : list X) (ys : list Y) :
  length xs = length ys -> (zip xs ys = [] <-> ys = []).
Proof. destruct xs, ys; simpl; intros; split; intros; congruence. Qed.

Lemma rounds_tail b sc (suf : list operand) :
  forall ops pre l p k,
    length ops = length suf ->
    suf <> [] ->
    result l <> [] ->
    keeper_variable l = Some k ->
    the_temp_scope l = Some sc ->
    exists l' p',
      rounds (built_from b (pre ++ suf))
        (zip ops (built_from (b + length pre) suf)) l p = Done l' p' /\
      result l' =
        result l ++ expected_comparisons sc (length pre)
                      (ExpressionTempVariableRef k)
                      (zip ops (built_from (b + length pre) suf)) /\
      keeper_variable l' = None /\
      next_object p' = next_object p /\ temp_scopes p' = temp_scopes p.
Proof.
  induction suf as [|x suf IH]; intros ops pre l p k Hlen Hne Hres Hk Hsc; [contradiction|].
  destruct ops as [|op ops]; [discriminate|]. injection Hlen as Hlen.
  cbn [built_from zip rounds]. unfold bind_B at 1. unfold round.
  unfold bind_B at 1.
  destruct (result l) as [|r0 rs] eqn:Er; [contradiction|].
  rewrite Hk. cbn [unit_B].
  unfold bind_B at 1.
  rewrite last_built_from'.
  rewrite last_app_cons. 
  destruct suf as [|y suf].
  - (* the last comparison *)
    destruct ops; [|discriminate].
    cbn [last option_map]. cbn [is_same].
    replace (b + length (pre ++ [x]) - 1) with (b + length pre)
      by (rewrite length_app; simpl; lia).
    rewrite Nat.eqb_refl. cbn [negb unit_B rounds built_from zip].
    eexists _, _. split; [reflexivity|]. cbn [result keeper_variable expected_comparisons].
    repeat split; reflexivity.
  - (* a comparison that is followed by another *)
    destruct ops as [|op2 ops]; [discriminate|].
    rewrite last_cons_cons.
    destruct (proj2 (last_is_Some (y :: suf))) as [z El]; [discriminate|].
    rewrite El.
    cbn [option_map is_same].
    destruct (Nat.eqb_spec (b + length pre) (b + length (pre ++ x :: y :: suf) - 1)) as [E|_].
    { rewrite length_app in E. simpl in E. lia. }
    cbn [negb]. rewrite Hsc. unfold bind_B at 1. cbn [unit_B].
    unfold bind_B at 1. rewrite index_built_from.
    unfold allocateTempVariable. cbn [unit_B].
    fold (keeper sc (length pre)).
    fold (kept (keeper sc (length pre)) (Built (b + length pre) x)).
    match goal with
    | |- context [rounds _ _ ?l1 ?p1] =>
        destruct (IH (op2 :: ops) (pre ++ [x]) l1 p1 (keeper sc (length pre)))
          as (l' & p' & Hr & Hres' & Hk' & Hn & Ht)
    end; [simpl in *; congruence | done | done | done | done | ].
    rewrite <- app_assoc in Hr. cbn [app] in Hr.
    rewrite length_app in Hr, Hres'. cbn [length] in Hr, Hres'.
    replace (b + (length pre + 1)) with (S (b + length pre)) in Hr, Hres' by lia.
    replace (length pre + 1) with (S (length pre)) in Hres' by lia.
    exists l', p'. split; [exact Hr|].
    split.
    + rewrite Hres'. cbn [result]. rewrite <- app_assoc. reflexivity.
    + repeat split; auto.
Qed.

Lemma rounds_tail' b sc (suf : list operand) ops pre l p k rights pairs :
  rights = built_from b (pre ++ suf) ->
  pairs = zip ops (built_from (b + length pre) suf) ->
  length ops = length suf ->
  suf <> [] ->
  result l <> [] ->
  keeper_variable l = Some k ->
  the_temp_scope l = Some sc ->
  exists l' p',
    rounds rights pairs l p = Done l' p' /\
    result l' =
      result l ++ expected_comparisons sc (length pre)
                    (ExpressionTempVariableRef k) pairs /\
    keeper_variable l' = None.
Proof.
  intros -> -> Hlen Hne Hres Hk Hsc.
  destruct (rounds_tail b sc suf ops pre l p k Hlen Hne Hres Hk Hsc)
    as (l' & p' & H1 & H2 & H3 & _).
  eauto.
Qed.

Lemma buildAndNode_is_Some (l : list (node operand)) :
  l <> [] -> is_Some (buildAndNode l).
Proof.
  induction l as [|x l IH]; [done|]. intros _.
  destruct l as [|y l]; [simpl; eauto|].
  destruct IH as [n Hn]; [done|].
  change (buildAndNode (x :: y :: l)) with
    (option_map (ExpressionBoolAND x) (buildAndNode (y :: l))).
  rewrite Hn. simpl. eauto.
Qed.

Lemma expected_comparisons_cons sc i (left_node : node operand) c r q pairs :
  expected_comparisons sc i left_node ((c, r) :: q :: pairs) =
  ExpressionComparison c left_node (kept (keeper sc i) r)
  :: expected_comparisons sc (S i) (ExpressionTempVariableRef (keeper sc i))
       (q :: pairs).
Proof. reflexivity. Qed.

Lemma buildAndNode_cons (x y : node operand) l :
  buildAndNode (x :: y :: l) =
  option_map (ExpressionBoolAND x) (buildAndNode (y :: l)).
Proof. reflexivity. Qed.

Lemma expected_comparisons_nonempty sc i (left_node : node operand) pairs :
  pairs <> [] -> expected_comparisons sc i left_node pairs <> [].
Proof. destruct pairs as [|[c r] [|q pairs]]; simpl; done. Qed.

Lemma buildComparisonNode_spec (ast_node : Compare operand) (p : Provider) :
  length (comparators ast_node) = length (ops ast_node) ->
  comparators ast_node <> [] ->
  exists n p',
    buildComparisonNode ast_node p = Done n p' /\
    buildAndNode
      (expected_comparisons ("comparison" +:+ "_" +:+ decimal (S (temp_scopes p))) 0
         (Built (next_object p) (left ast_node))
         (zip (ops ast_node)
            (built_from (S (next_object p)) (comparators ast_node)))) = Some n.
Proof.
  destruct ast_node as [lft operators srcs]. cbn [comparators ops left].
  intros Hlen Hne. unfold buildComparisonNode. cbn [comparators ops left].
  rewrite Hlen, Nat.eqb_refl. cbn [negb].
  unfold bind_B at 1. unfold buildNode at 1.
  unfold bind_B at 1. rewrite buildNodes_spec. cbn [next_object temp_scopes temp_variables].
  unfold bind_B at 1.
  destruct srcs as [|x srcs]; [done|].
  destruct operators as [|op operators]; [discriminate|]. injection Hlen as Hlen.
  set (b := next_object p).
  destruct srcs as [|y srcs].
  - destruct operators; [|discriminate].
    cbn [built_from zip rounds]. unfold bind_B at 1. unfold round.
    cbn [result left_node keeper_variable bind_B unit_B last is_same].
    unfold bind_B. cbn [unit_B last is_same]. rewrite Nat.eqb_refl.
    cbn [negb unit_B rounds keeper_variable result the_temp_scope app buildAndNode
         expected_comparisons].
    eexists _, _. split; reflexivity.
  - destruct operators as [|op2 operators]; [discriminate|].
    change (built_from (S b) (x :: y :: srcs)) with
      (Built (S b) x :: built_from (S (S b)) (y :: srcs)).
    cbn [zip rounds]. unfold bind_B at 1. unfold round.
    cbn [result left_node keeper_variable]. unfold bind_B at 1. cbn [unit_B].
    unfold bind_B at 1.
    change (Built (S b) x :: built_from (S (S b)) (y :: srcs)) with
      (built_from (S b) (x :: y :: srcs)).
    rewrite last_built_from'.
    destruct (proj2 (last_is_Some (x :: y :: srcs))) as [z El]; [done|].
    rewrite El. cbn [option_map is_same].
    destruct (Nat.eqb_spec (S b) (S b + length (x :: y :: srcs) - 1)) as [E|_].
    { simpl in E. lia. }
    cbn [negb the_temp_scope]. unfold bind_B at 1. unfold allocateTempScope at 1.
    cbn [temp_scopes next_object temp_variables].
    unfold bind_B at 1.
    pose proof (index_built_from (S b) [] (y :: srcs) x) as Hi.
    cbn [length app] in Hi. rewrite Nat.add_0_r in Hi. rewrite Hi.
    unfold allocateTempVariable at 1. cbn [unit_B].
    set (sc := "comparison" +:+ "_" +:+ decimal (S (temp_scopes p))).
    fold (keeper sc 0). fold (kept (keeper sc 0) (Built (S b) x)).
    match goal with
    | |- context [rounds ?rights ?pairs ?l1 ?p1] =>
        destruct (rounds_tail' (S b) sc (y :: srcs) (op2 :: operators) [x] l1 p1
                    (keeper sc 0) rights pairs)
          as (l' & p' & Hr & Hres' & Hk')
    end; [reflexivity | replace (S b + length [x]) with (S (S b)) by (simpl; lia); reflexivity | simpl in *; congruence
          | done | done | done | done | ].
    rewrite Hr. rewrite Hk'.
    cbn [result app length] in Hres'.
    destruct (buildAndNode_is_Some (result l')) as [n Hn'].
    { rewrite Hres'. done. }
    rewrite Hn'. exists n, p'. split; [reflexivity|].
    rewrite <- Hn', Hres'. reflexivity.
Qed.

Lemma operands_of_expected sc (srcs : list operand) :
  forall operators b i (left_node : node operand) n,
    length operators = length srcs ->
    srcs <> [] ->
    buildAndNode (expected_comparisons sc i left_node
                    (zip operators (built_from b srcs))) = Some n ->
    operands_of n = operands_of left_node ++ srcs.
Proof.
  induction srcs as [|s srcs IH]; intros operators b i left_node n Hlen Hne Hn; [done|].
  destruct operators as [|op operators]; [discriminate|]. injection Hlen as Hlen.
  destruct srcs as [|s2 srcs].
  - destruct operators; [|discriminate].
    cbn [built_from zip expected_comparisons buildAndNode] in Hn. injection Hn as <-.
    reflexivity.
  - destruct operators as [|op2 operators]; [discriminate|].
    change (built_from b (s :: s2 :: srcs)) with
      (Built b s :: built_from (S b) (s2 :: srcs)) in Hn.
    change (zip (op :: op2 :: operators) (Built b s :: built_from (S b) (s2 :: srcs)))
      with ((op, Built b s) :: zip (op2 :: operators) (built_from (S b) (s2 :: srcs))) in Hn.
    remember (zip (op2 :: operators) (built_from (S b) (s2 :: srcs))) as pairs eqn:Ep.
    destruct pairs as [|q pairs]; [discriminate|].
    rewrite expected_comparisons_cons in Hn.
    destruct (buildAndNode_is_Some
                (expected_comparisons sc (S i)
                   (ExpressionTempVariableRef (keeper sc i)) (q :: pairs)))
      as [n' Hn'].
    { apply expected_comparisons_nonempty. done. }
    remember (expected_comparisons sc (S i)
                   (ExpressionTempVariableRef (keeper sc i)) (q :: pairs)) as rest eqn:Er in *.
    destruct rest as [|r0 rest]; [discriminate|].
    rewrite buildAndNode_cons, Hn' in Hn. cbn [option_map] in Hn. injection Hn as <-.
    rewrite Er, Ep in Hn'.
    cbn [operands_of]. unfold kept. cbn [operands_of app].
    rewrite (IH (op2 :: operators) (S b) (S i) (ExpressionTempVariableRef (keeper sc i)) n');
      [| simpl in *; congruence | done | exact Hn'].
    cbn [operands_of app]. rewrite ?app_nil_r, <- ?app_assoc. reflexivity.
Qed.

Section Meaning.
Context {value failure world : Type}.
Variable eval_operand : operand -> world -> (value + failure) * world.
Variable compare : string -> value -> value -> world -> (value + failure) * world.
Variable truth : value -> world -> (bool + failure) * world.

Local Abbreviation eval := (eval eval_operand compare truth).
Local Abbreviation chain_from := (chain_from eval_operand compare truth).

Lemma eval_expected sc (srcs : list operand) :
  forall operators b i (left_node : node operand) t w n,
    length operators = length srcs ->
    srcs <> [] ->
    buildAndNode (expected_comparisons sc i left_node
                    (zip operators (built_from b srcs))) = Some n ->
    observable (eval n t w) =
    match eval left_node t w with
    | Value x t1 w1 => Some (chain_from x (zip operators srcs) w1)
    | Raised f _ w1 => Some (ChainRaised f w1)
    | Unassigned _ => None
    end.
Proof.
  induction srcs as [|s srcs IH]; intros operators b i left_node t w n Hlen Hne Hn; [done|].
  destruct operators as [|op operators]; [discriminate|]. injection Hlen as Hlen.
  destruct srcs as [|s2 srcs].
  - destruct operators; [|discriminate].
    cbn [built_from zip expected_comparisons buildAndNode] in Hn. injection Hn as <-.
    cbn [eval zip chain_from].
    destruct (eval left_node t w) as [x t1 w1|f t1 w1|v]; cbn [observable]; try reflexivity.
    destruct (eval_operand s w1) as [[y|f] w2]; cbn [observable]; try reflexivity.
    destruct (compare op x y w2) as [[c|f] w3]; reflexivity.
  - destruct operators as [|op2 operators]; [discriminate|].
    change (built_from b (s :: s2 :: srcs)) with
      (Built b s :: built_from (S b) (s2 :: srcs)) in Hn.
    change (zip (op :: op2 :: operators) (Built b s :: built_from (S b) (s2 :: srcs)))
      with ((op, Built b s) :: zip (op2 :: operators) (built_from (S b) (s2 :: srcs))) in Hn.
    remember (zip (op2 :: operators) (built_from (S b) (s2 :: srcs))) as pairs eqn:Ep.
    assert (Hpairs : pairs <> []).
    { subst pairs. simpl. done. }
    destruct pairs as [|q pairs]; [done|].
    rewrite expected_comparisons_cons in Hn.
    destruct (buildAndNode_is_Some
                (expected_comparisons sc (S i)
                   (ExpressionTempVariableRef (keeper sc i)) (q :: pairs)))
      as [n' Hn'].
    { apply expected_comparisons_nonempty. done. }
    remember (expected_comparisons sc (S i)
                   (ExpressionTempVariableRef (keeper sc i)) (q :: pairs)) as rest eqn:Er in *.
    destruct rest as [|r0 rest]; [discriminate|].
    rewrite buildAndNode_cons, Hn' in Hn. cbn [option_map] in Hn. injection Hn as <-.
    change (zip (op :: op2 :: operators) (s :: s2 :: srcs)) with
      ((op, s) :: zip (op2 :: operators) (s2 :: srcs)).
    cbn [eval chain_from]. unfold kept. cbn [eval].
    destruct (eval left_node t w) as [x t1 w1|f t1 w1|v]; cbn [observable]; try reflexivity.
    destruct (eval_operand s w1) as [[y|f] w2]; cbn [observable]; try reflexivity.
    unfold assign at 1. rewrite bool_decide_eq_true_2 by reflexivity.
    destruct (compare op x y w2) as [[c|f] w3]; cbn [observable]; try reflexivity.
    destruct (truth c w3) as [[[|]|f] w4]; cbn [observable]; try reflexivity.
    rewrite Er, Ep in Hn'.
    rewrite (IH (op2 :: operators) (S b) (S i) (ExpressionTempVariableRef (keeper sc i)) _ w4 n'); [| simpl in *; congruence | done | exact Hn'].
    cbn [eval]. unfold assign. rewrite bool_decide_eq_true_2 by reflexivity.
    reflexivity.
Qed.
End Meaning.
End Facts.

(** C5: for a comparison chain with as many operators as right operands, at
    least one, [buildComparisonNode] gives a node whose evaluation is, in
    every world, the short-circuit conjunction of the adjacent
    comparisons: the operands are evaluated once each, left to right, up
    to the first comparison that is false (or that raises); the first
    comparison has the literal left and right operands, and every later
    one has as its left operand the reference to the temporary variable
    that kept the previous right operand. *)
Theorem chained_comparison_reformulation
    (operand value failure world : Type)
    (eval_operand : operand -> world -> (value + failure) * world)
    (compare : string -> value -> value -> world -> (value + failure) * world)
    (truth : value -> world -> (bool + failure) * world)
    (ast_node : Compare operand) (p : Provider) :
  length (comparators ast_node) = length (ops ast_node) ->
  comparators ast_node <> [] ->
  exists n p',
    buildComparisonNode ast_node p = Done n p' /\
    (forall t w,
        observable (eval eval_operand compare truth n t w) =
        Some (chained_comparison eval_operand compare truth ast_node w)) /\
    buildAndNode
      (expected_comparisons
         ("comparison" +:+ "_" +:+ decimal (S (temp_scopes p))) 0
         (Built (next_object p) (left ast_node))
         (zip (ops ast_node)
            (built_from (S (next_object p)) (comparators ast_node)))) = Some n /\
    operands_of n = left ast_node :: comparators ast_node.
Proof.
  intros Hlen Hne.
  destruct (buildComparisonNode_spec ast_node p Hlen Hne) as (n & p' & Hb & Hn).
  exists n, p'. split; [exact Hb|]. split; [|split; [exact Hn|]].
  - intros t w.
    rewrite (eval_expected eval_operand compare truth _ _ _ _ _ _ t w n (eq_sym Hlen) Hne Hn).
    unfold chained_comparison. cbn [eval].
    destruct (eval_operand (left ast_node) w) as [[x|f] w1]; reflexivity.
  - rewrite (operands_of_expected _ _ _ _ _ _ n (eq_sym Hlen) Hne Hn). reflexivity.
Qed.

Lemma chained_comparison_reformulation_witness :
  exists n p',
    buildComparisonNode a_lt_b_lt_c (mkProvider 0 0 []) = Done n p' /\
    observable (eval trace_operand trace_compare trace_truth n (fun _ => None) []) =
      Some (ChainValue 0 [0; 1]) /\
    operands_of n = [(0, 5); (1, 3); (2, 9)].
Proof.
  destruct (chained_comparison_reformulation (nat * nat) nat unit (list nat)
              trace_operand trace_compare trace_truth a_lt_b_lt_c (mkProvider 0 0 []))
    as (n & p' & Hb & He & _ & Ho); [reflexivity | discriminate |].
  exists n, p'. split; [exact Hb|]. split; [|exact Ho].
  rewrite He. reflexivity.
Defined.

End ComparisonFacts.

(** * Code generation *)

Module GenerationFacts.
Import Constants Nodes Contexts Generator CodeGeneration Execution.
Import ConstantCodes Properties.
Local Open Scope gen_scope.

Lemma bind_Ok_inv {A B} (m : M A) (f : A -> M B) s b s' :
  bind m f s = Ok b s' -> exists a s1, m s = Ok a s1 /\ f a s1 = Ok b s'.
Proof. unfold bind. destruct (m s) as [a s1|e s1|]; try discriminate. eauto. Qed.


Ltac unfold_primitives_in H :=
  cbv [allocateTempName allocateLabel getCleanupTempnames needsCleanup addCleanupTempName
       removeCleanupTempName getTrueBranchTarget getFalseBranchTarget setTrueBranchTarget
       setFalseBranchTarget getLoopBreakTarget getLoopContinueTarget setLoopBreakTarget
       setLoopContinueTarget getReturnTarget setReturnTarget getExceptionEscape
       setExceptionEscape getExceptionNotOccured setExceptionNotOccured isExceptionPublished
       setExceptionPublished getReturnReleaseMode setReturnReleaseMode getReturnValueName
       markAsNeedsExceptionVariables setSourceReference getExceptionKeeperVariables
       emit getGotoCode getLabelCode getErrorExitBoolCode getBranchingCode
       new_collector printError
       getReleaseCode getVariableAssignmentCode
       getBuiltinLoopBreakNextCode goto_with_indicator getLoopBreakCode getLoopContinueCode
       getSetLineNumberCode getLineNumberCode getSetLineNumberCodeRaw resetLineNumber
       pushLineNumberBranch popLineNumberBranch mergeLineNumberBranches redispatch_goto
       record_boundary check_cleanup_at_statement_end
       bind ret get put gets modify raise assert when bound] in H.

(* one bind is taken apart; a first part that is a primitive is run *)
Ltac step H :=
  let a := fresh "a" in
  let s1 := fresh "s" in
  let E := fresh "E" in
  apply bind_Ok_inv in H as (a & s1 & E & H);
  try (unfold_primitives_in E;
       first [ injection E as <- <-
             | match type of E with
               | context [if ?b then _ else _] =>
                   destruct b eqn:?;
                   [ injection E as <- <- | discriminate E ]
               end ]).

Ltac inject E := first [ injection E as <- <- | injection E as <- ].

Ltac run_primitive E :=
  unfold_primitives_in E;
  first [ inject E
        | match type of E with
          | context [if ?b then _ else _] =>
              destruct b eqn:?; [ inject E | discriminate E ]
          | context [match ?o with Some _ => _ | None => _ end] =>
              destruct o; [ inject E | discriminate E ]
          end ].

Ltac steps :=
  repeat match goal with
         | H : bind _ _ _ = Ok _ _ |- _ => step H
         | H : _ = Ok _ ?x |- _ => is_var x; progress (run_primitive H)
         end.


Ltac unfold_primitives :=
  cbv [allocateTempName allocateLabel getCleanupTempnames needsCleanup addCleanupTempName
       removeCleanupTempName getTrueBranchTarget getFalseBranchTarget setTrueBranchTarget
       setFalseBranchTarget getLoopBreakTarget getLoopContinueTarget setLoopBreakTarget
       setLoopContinueTarget getReturnTarget setReturnTarget getExceptionEscape
       setExceptionEscape getExceptionNotOccured setExceptionNotOccured isExceptionPublished
       setExceptionPublished getReturnReleaseMode setReturnReleaseMode getReturnValueName
       markAsNeedsExceptionVariables setSourceReference getExceptionKeeperVariables
       emit getGotoCode getLabelCode getErrorExitBoolCode getBranchingCode
       new_collector printError getConstantCode
       getReleaseCode getConditionCheckTrueCode getConditionCheckFalseCode support_branch
       getComparisonExpressionBoolCode getAttributeCheckBoolCode getBuiltinIsinstanceBoolCode
       support_call getCAPIObjectCode getComparisonExpressionCode getOperationCode
       getBuiltinNext1Code getVariableAccessCode getVariableAssignmentCode
       getBuiltinLoopBreakNextCode goto_with_indicator getLoopBreakCode getLoopContinueCode
       getReRaiseExceptionCode getRaiseExceptionWithTypeCode getExceptionUnpublishedReleaseCode
       getSetLineNumberCode getLineNumberCode getSetLineNumberCodeRaw resetLineNumber
       pushLineNumberBranch popLineNumberBranch mergeLineNumberBranches redispatch_goto].


Section Invariant.
(** A relation between the state before and the state after a step of
    code generation that every step respects. *)
Variable R : State -> State -> Prop.
Hypothesis R_refl : forall s, R s s.
Hypothesis R_trans : forall s1 s2 s3, R s1 s2 -> R s2 s3 -> R s1 s3.
Hypothesis R_context : forall f s, R s (with_context f s).
Hypothesis R_codes : forall f s, R s (with_codes f s).
Hypothesis R_whitelist : forall w s, R s (with_temp_whitelist w s).
Hypothesis R_errors : forall f s, R s (with_errors f s).
Hypothesis R_mark :
  forall i s, R s (with_code_generated (fun g => {[ i ]} ∪ g) s).

Hypothesis R_check :
  forall statement candidate,
    keeps R (check_cleanup_at_statement_end statement candidate).

Lemma keeps_ret {A} (a : A) : keeps R (ret a).
Proof. intros s. apply R_refl. Qed.

Lemma keeps_raise {A} e : keeps R (@raise A e).
Proof. intros s. apply R_refl. Qed.

Lemma keeps_out_of_fuel {A} : keeps R (@out_of_fuel A).
Proof. intros s. exact I. Qed.

Lemma keeps_bind {A B} (m : M A) (f : A -> M B) :
  keeps R m -> (forall a, keeps R (f a)) -> keeps R (bind m f).
Proof.
  intros Hm Hf s. unfold bind. specialize (Hm s).
  destruct (m s) as [a s1|e s1|]; auto.
  specialize (Hf a s1). destruct (f a s1); auto; eapply R_trans; eauto.
Qed.

Lemma keeps_on_exception {A} (m : M A) h :
  keeps R m -> keeps R h -> keeps R (on_exception m h).
Proof.
  intros Hm Hh s. unfold on_exception. specialize (Hm s).
  destruct (m s) as [a s1|e s1|]; auto.
  specialize (Hh s1). destruct (h s1); auto; eapply R_trans; eauto.
Qed.

Lemma keeps_get : keeps R get.
Proof. intros s. apply R_refl. Qed.

Lemma keeps_gets {A} (f : State -> A) : keeps R (gets f).
Proof. intros s. apply R_refl. Qed.

Lemma keeps_modify f : (forall s, R s (f s)) -> keeps R (modify f).
Proof. intros H s. apply H. Qed.

Lemma keeps_assert b w : keeps R (assert b w).
Proof. destruct b; [apply keeps_ret | apply keeps_raise]. Qed.

Lemma keeps_when b m : keeps R m -> keeps R (when b m).
Proof. intros H. destruct b; [exact H | apply keeps_ret]. Qed.

Lemma keeps_bound {A} n (v : option A) : keeps R (bound n v).
Proof. destruct v; [apply keeps_ret | apply keeps_raise]. Qed.

Ltac keeps_step :=
  match goal with
  | |- keeps R (bind _ _) => apply keeps_bind; [|intros ?]
  | |- keeps R (on_exception _ _) => apply keeps_on_exception
  | |- keeps R (when _ _) => apply keeps_when
  | |- keeps R (modify (with_code_generated _)) =>
      apply keeps_modify; intros ?; apply R_mark
  | |- keeps R (modify (with_context _)) =>
      apply keeps_modify; intros ?; apply R_context
  | |- keeps R (modify (with_codes _)) =>
      apply keeps_modify; intros ?; apply R_codes
  | |- keeps R (modify (with_temp_whitelist _)) =>
      apply keeps_modify; intros ?; apply R_whitelist
  | |- keeps R (modify (with_errors _)) =>
      apply keeps_modify; intros ?; apply R_errors
  | |- keeps R (ret _) => apply keeps_ret
  | |- keeps R (raise _) => apply keeps_raise
  | |- keeps R get => apply keeps_get
  | |- keeps R (gets _) => apply keeps_gets
  | |- keeps R (assert _ _) => apply keeps_assert
  | |- keeps R (bound _ _) => apply keeps_bound
  | |- keeps R out_of_fuel => apply keeps_out_of_fuel
  | |- keeps R (check_cleanup_at_statement_end _ _) => apply R_check
  | |- keeps R (if ?b then _ else _) => destruct b
  | |- keeps R (match ?x with _ => _ end) => destruct x
  | |- keeps R _ => solve [auto]
  end.

Ltac keeps_tac := repeat (unfold_primitives; keeps_step).

Lemma keeps_getReleaseCodes l : keeps R (getReleaseCodes l).
Proof. induction l; simpl; keeps_tac. Qed.

Lemma keeps_needs_deep_items l : keeps R (ConstantCodes.needs_deep_items l).
Proof. induction l as [|[k v] l IH]; simpl; keeps_tac. Qed.

Hint Resolve keeps_getReleaseCodes keeps_needs_deep_items : core.

Lemma keeps_getConstantAccessC to c : keeps R (ConstantCodes.getConstantAccessC to c).
Proof. unfold ConstantCodes.getConstantAccessC. keeps_tac. Qed.

Lemma keeps_redispatch pv facts a b c d e f g h :
  keeps R (generateTryFinallyCode_redispatch pv facts a b c d e f g h).
Proof. unfold generateTryFinallyCode_redispatch. keeps_tac. Qed.

Lemma keeps_exits pv to facts a b c d e f g h i :
  keeps R (generateTryFinallyCode_exits pv to facts a b c d e f g h i).
Proof. unfold generateTryFinallyCode_exits. keeps_tac. Qed.

Hint Resolve keeps_getConstantAccessC keeps_redispatch keeps_exits : core.

Variable python_version : nat.
Variable comparison_inversions : list string.

Lemma generation_keeps fuel : all_keep R python_version comparison_inversions fuel.
Proof.
  induction fuel as [|fuel IH].
  - unfold all_keep. repeat split; intros; simpl; apply keeps_out_of_fuel.
  - destruct IH as (H1 & H2 & H3 & H4 & H5 & H6 & H7 & H8 & H9 & H10 & H11 & H12 & H13
                    & H14 & H15 & H16 & H17).
    unfold all_keep. repeat split; intros.
    + simpl generateConditionCode. keeps_tac.
    + simpl generateComparisonExpressionCode. keeps_tac.
    + simpl generateCAPIObjectCodeommon. apply keeps_bind; [|intros; keeps_tac].
      induction d as [|[n0 e] d IHd]; simpl; keeps_tac.
    + simpl _generateExpressionCode. keeps_tac.
    + simpl generateExpressionCode. keeps_tac.
    + simpl generateTryNextExceptStopIterationCode. keeps_tac.
    + simpl generateTryExceptCode. keeps_tac.
    + simpl generateTryFinallyCode. keeps_tac.
    + simpl generateRaiseCode. keeps_tac.
    + simpl generateBranchCode. keeps_tac.
    + simpl generateLoopCode. keeps_tac.
    + simpl generateReturnCode. keeps_tac.
    + simpl generateAssignmentVariableCode. keeps_tac.
    + simpl generateStatementOnlyCode. keeps_tac.
    + simpl _generateStatementCode. keeps_tac.
    + simpl generateStatementCode. keeps_tac.
    + simpl _generateStatementSequenceCode. destruct q as [q|]; [|keeps_tac].
      destruct q as [qi l]. simpl getStatements.
      induction l as [|x l IHl]; simpl; keeps_tac.
Qed.


End Invariant.

Lemma grows_refl s : grows s s.
Proof. unfold grows. set_solver. Qed.

Lemma grows_trans s1 s2 s3 : grows s1 s2 -> grows s2 s3 -> grows s1 s3.
Proof. unfold grows. set_solver. Qed.

Lemma grows_context f s : grows s (with_context f s).
Proof. unfold grows. simpl. set_solver. Qed.

Lemma grows_codes f s : grows s (with_codes f s).
Proof. unfold grows. simpl. set_solver. Qed.

Lemma grows_whitelist w s : grows s (with_temp_whitelist w s).
Proof. unfold grows. simpl. set_solver. Qed.

Lemma grows_errors f s : grows s (with_errors f s).
Proof. unfold grows. simpl. set_solver. Qed.

Lemma grows_mark i s :
  grows s (with_code_generated (fun g => {[ i ]} ∪ g) s).
Proof. unfold grows. simpl. set_solver. Qed.

Lemma grows_check statement candidate :
  keeps grows (check_cleanup_at_statement_end statement candidate).
Proof.
  intros s. unfold check_cleanup_at_statement_end, record_boundary.
  destruct candidate; cbv [bind getCleanupTempnames gets modify assert ret raise];
    try (unfold grows; simpl; set_solver).
  destruct (_ || _); unfold grows; simpl; set_solver.
Qed.

Lemma markers_grow pv inv fuel : all_keep grows pv inv fuel.
Proof.
  apply generation_keeps;
    auto using grows_refl, grows_context, grows_codes, grows_whitelist,
               grows_errors, grows_mark, grows_check.
  apply grows_trans.
Qed.




(** ** The control flow of emitted code *)




















(** ** The re-dispatch after a final block *)

Lemma emits_trans s1 s2 s3 l1 l2 :
  emits s1 s2 l1 -> emits s2 s3 l2 -> emits s1 s3 (l1 ++ l2).
Proof.
  intros [H1 C1] [H2 C2]. split; [|congruence].
  rewrite H2, H1. now rewrite app_assoc.
Qed.








(** ** Loops *)

(** C6, as the code has it: the code of a loop is the start label, the code
    of the body, the scheduling checkpoint, whose failure goes to the
    exception-escape target, the jump back to the start label, and the end
    label unless the loop statement is aborting.  Inside the body a
    continue is a jump to the start label and a break is a jump to the end
    label, and the targets of the enclosing loop are restored afterwards.
    The checkpoint is on the path that falls through the end of the
    body. *)
Theorem loop_code_shape
    (pv : nat) (inv : list string) (fuel : nat) (aborting : bool)
    (loop_body : option sequence) (s s' : State) :
  generateLoopCode pv inv (S fuel) aborting loop_body s = Ok tt s' ->
  exists (loop_start loop_end : target) (s_in s_body : State),
    is_label loop_start = true /\
    (if aborting then loop_end = NoTarget else is_label loop_end = true) /\
    codes s_in = codes s ++ [LabelCode loop_start] /\
    loop_continue (context s_in) = loop_start /\
    loop_break (context s_in) = loop_end /\
    _generateStatementSequenceCode pv inv fuel loop_body true s_in = Ok tt s_body /\
    codes s' =
      codes s_body
      ++ [ErrorExitBool checkpoint (exception_escape (context s_body)); Goto loop_start]
      ++ (if aborting then [] else [LabelCode loop_end]) /\
    loop_continue (context s') = loop_continue (context s) /\
    loop_break (context s') = loop_break (context s) /\
    (forall info, _generateStatementCode pv inv (S fuel) (StatementContinueLoop info) s_in
                  = Ok tt (with_codes (fun cs => cs ++ [Goto loop_start]) s_in)) /\
    (forall info, aborting = false ->
                  _generateStatementCode pv inv (S fuel) (StatementBreakLoop info) s_in
                  = Ok tt (with_codes (fun cs => cs ++ [Goto loop_end]) s_in)).
Proof.
  intros H. simpl generateLoopCode in H.
  destruct aborting; steps;
    match goal with
    | E : _generateStatementSequenceCode _ _ _ _ _ ?s_in = Ok ?a ?s_body |- _ =>
        destruct a;
        exists (loop_continue (context s_in)), (loop_break (context s_in)), s_in, s_body
    end;
    repeat split; try assumption; try reflexivity;
    simpl; rewrite <- ?app_assoc; reflexivity.
Qed.

(** C6 as it is written fails for [while True: continue]: the emitted code
    is back at the start label after every two steps, with no checkpoint
    passed. *)
Lemma continue_skips_checkpoint :
  (exists s', generateStatementCode 270 [] 10 spinning_loop initial_state = Ok tt s' /\
              codes s' = spinning_loop_code) /\
  forall (r : Runtime) (n : nat),
    run (2 * n) spinning_loop_code (start r) = Running 0 r [].
Proof.
  split.
  - vm_compute. eexists. split; reflexivity.
  - intros r n. induction n as [|n IH]; [reflexivity|].
    replace (2 * S n) with (S (S (2 * n))) by lia.
    exact IH.
Qed.

Lemma loop_code_shape_witness :
  exists s',
    generateLoopCode 270 [] 10 false breaking_loop_body initial_state = Ok tt s' /\
    exists (loop_start loop_end : target) (s_body : State),
      codes s' =
        codes s_body
        ++ [ErrorExitBool checkpoint (exception_escape (context s_body)); Goto loop_start]
        ++ [LabelCode loop_end] /\
      loop_break (context s') = loop_break (context initial_state).
Proof.
  assert (H : exists s',
             generateLoopCode 270 [] 10 false breaking_loop_body initial_state = Ok tt s')
    by (vm_compute; eexists; reflexivity).
  destruct H as [s' H]. exists s'. split; [exact H|].
  destruct (loop_code_shape _ _ _ _ _ _ _ H)
    as (loop_start & loop_end & s_in & s_body & _ & _ & _ & _ & _ & _ & Hc & _ & Hb & _).
  exists loop_start, loop_end, s_body. split; assumption.
Defined.


(** ** The fused advance of an iterator *)

Lemma name_in_app_self n l : name_in n (l ++ [n]) = true.
Proof.
  unfold name_in. rewrite existsb_app. simpl. rewrite String.eqb_refl.
  now rewrite orb_true_r.
Qed.




(** ** Conditional expressions *)

(** C8: the code of a conditional expression is the code of the condition,
    the yes-branch, the jump to the end label, the no-label, the
    no-branch and the end label; when exactly one branch leaves the
    destination without a reference of its own, the reference increment
    is emitted at the end of that branch, before the paths join, and the
    destination owns its reference afterwards exactly when one of the
    branches made it own one.  The branch targets of the context are
    restored. *)
Theorem conditional_expression_reference_reconciled
    (pv : nat) (inv : list string) (fuel : nat) (to_name : string)
    (info : expression_info) (condition expression_yes expression_no : expression)
    (s s' : State) :
  _generateExpressionCode pv inv (S fuel) to_name
    (Some (ExpressionConditional info condition expression_yes expression_no)) false s
  = Ok tt s' ->
  exists (yes_label no_label end_target : target) (s_cond s_yes s_no : State),
    generateExpressionCode pv inv fuel to_name (Some expression_yes) false
      (with_codes (fun l => l ++ [LabelCode yes_label]) s_cond) = Ok tt s_yes /\
    generateExpressionCode pv inv fuel to_name (Some expression_no) false
      (with_codes (fun _ => [])
         (if owns to_name s_yes
          then with_context (set_cleanup_names
                 (remove_name to_name (cleanup_names (context s_yes)))) s_yes
          else s_yes)) = Ok tt s_no /\
    codes s' =
      codes s_yes
      ++ (if negb (owns to_name s_yes) && owns to_name s_no then [incref to_name] else [])
      ++ [Goto end_target; LabelCode no_label]
      ++ codes s_no
      ++ (if owns to_name s_yes && negb (owns to_name s_no) then [incref to_name] else [])
      ++ [LabelCode end_target] /\
    owns to_name s' = owns to_name s_yes || owns to_name s_no /\
    true_target (context s') = true_target (context s) /\
    false_target (context s') = false_target (context s).
Proof.
  intros H. simpl _generateExpressionCode in H.
  steps.
  repeat match goal with a : unit |- _ => destruct a end.
  match goal with
  | E : generateExpressionCode _ _ _ _ (Some expression_yes) _ _ = Ok tt ?s_yes |- _ =>
      destruct (name_in to_name (cleanup_names (context s_yes))) eqn:Hyes
  end;
  match goal with
  | E : generateExpressionCode _ _ _ _ (Some expression_no) _ _ = Ok tt ?s_no |- _ =>
      destruct (name_in to_name (cleanup_names (context s_no))) eqn:Hno
  end;
  cbn [andb negb] in *; steps.
  all: (do 6 eexists; split; [eassumption|]; unfold owns, incref; split;
    [rewrite Hyes; eassumption|]).
  all: rewrite ?Hyes, ?Hno; simpl.
  all: rewrite ?name_in_app_self, ?Hno.
  all: rewrite <- ?app_assoc; simpl; repeat split; reflexivity.
Qed.

Lemma conditional_expression_reference_reconciled_witness :
  exists s',
    _generateExpressionCode 270 [] 10 "tmp_result" (Some pick_list_or_variable) false
      initial_state = Ok tt s' /\
    exists (end_target no_label : target) (s_yes s_no : State),
      codes s' =
        codes s_yes
        ++ (if negb (owns "tmp_result" s_yes) && owns "tmp_result" s_no
            then [incref "tmp_result"] else [])
        ++ [Goto end_target; LabelCode no_label]
        ++ codes s_no
        ++ (if owns "tmp_result" s_yes && negb (owns "tmp_result" s_no)
            then [incref "tmp_result"] else [])
        ++ [LabelCode end_target] /\
      owns "tmp_result" s' = owns "tmp_result" s_yes || owns "tmp_result" s_no.
Proof.
  assert (H : exists s',
             _generateExpressionCode 270 [] 10 "tmp_result" (Some pick_list_or_variable)
               false initial_state = Ok tt s')
    by (vm_compute; eexists; reflexivity).
  destruct H as (s' & H). exists s'. split; [exact H|].
  destruct (conditional_expression_reference_reconciled 270 [] 9 "tmp_result" _ _ _ _ _ _ H)
    as (yes_label & no_label & end_target & s_cond & s_yes & s_no
        & _ & _ & Hcodes & Howns & _).
  exists end_target, no_label, s_yes, s_no. split; assumption.
Defined.

Lemma pick_list_or_variable_code :
  exists s',
    _generateExpressionCode 270 [] 10 "tmp_result" (Some pick_list_or_variable) false
      initial_state = Ok tt s' /\
    codes s' =
      [Support "VARIABLE_ACCESS" "tmp_cond_value_1" ["flag"] NoTarget;
       Line "tmp_cond_truth_1 = CHECK_IF_TRUE( tmp_cond_value_1 );";
       ErrorExitBool "tmp_cond_truth_1 == -1" NoTarget;
       Branching "tmp_cond_truth_1 == 1" (LabelTarget "condexpr_true_1")
         (LabelTarget "condexpr_false_1");
       LabelCode (LabelTarget "condexpr_true_1");
       Line "tmp_result = LIST_COPY( const_1857636404992 );";
       Goto (LabelTarget "condexpr_end_1");
       LabelCode (LabelTarget "condexpr_false_1");
       Support "VARIABLE_ACCESS" "tmp_result" ["other"] NoTarget;
       Line "Py_INCREF( tmp_result );";
       LabelCode (LabelTarget "condexpr_end_1")] /\
    cleanup_names (context s') = ["tmp_result"].
Proof. eexists. split; [vm_compute; reflexivity|]. split; reflexivity. Qed.


(** ** Statement boundaries *)

Lemma logs_refl s : logs s s.
Proof. exists []. split; [now rewrite app_nil_r|constructor]. Qed.

Lemma logs_trans s1 s2 s3 : logs s1 s2 -> logs s2 s3 -> logs s1 s3.
Proof.
  intros (n1 & H1 & F1) (n2 & H2 & F2). exists (n1 ++ n2). split.
  - rewrite H2, H1. now rewrite app_assoc.
  - apply List.Forall_app. now split.
Qed.

Lemma logs_one s b : good_boundary b -> logs s (with_boundaries (fun l => l ++ [b]) s).
Proof.
  intros H. exists [b]. split; [reflexivity|].
  apply List.Forall_cons; [exact H|apply List.Forall_nil].
Qed.

Lemma logs_check statement candidate :
  keeps logs (check_cleanup_at_statement_end statement candidate).
Proof.
  intros s. unfold check_cleanup_at_statement_end, record_boundary.
  destruct candidate;
    cbv [bind getCleanupTempnames gets modify assert ret raise];
    try (apply logs_one; unfold good_boundary; simpl; discriminate).
  destruct (cleanup_names (context s)) as [|n l] eqn:Hc; simpl.
  - apply logs_one. unfold good_boundary; simpl. intros _. left. assumption || (rewrite ?Hc; reflexivity).
  - destruct (bool_decide_reflect (n :: l = _temp_whitelist s)) as [Heq|Hne]; simpl.
    + apply logs_one. unfold good_boundary; simpl. intros _. right. rewrite ?Hc. assumption.
    + apply logs_refl.
Qed.

Lemma logs_same s s' : boundaries s' = boundaries s -> logs s s'.
Proof. intros H. exists []. split; [now rewrite app_nil_r|constructor]. Qed.

Lemma boundaries_logged pv inv fuel : all_keep logs pv inv fuel.
Proof.
  apply generation_keeps; intros;
    try (apply logs_same; reflexivity); try apply logs_check.
  eapply logs_trans; eassumption.
Qed.






(** ** Conditions *)

Lemma inverted_comparison_false_target
    (python_version : nat) (comparison_inversions : list string) (fuel : nat)
    (info : expression_info) (comparator : string)
    (left_node right_node : expression) (s s' : State) :
  generateConditionCode python_version comparison_inversions (S fuel)
    (Some (ExpressionComparison info comparator left_node right_node))
    true false s = Ok tt s' ->
  false_target (context s') = BoundMethod "getFalseBranchTarget".
Proof.
  intros H. simpl generateConditionCode in H. steps. reflexivity.
Qed.

(** C10, at the failing input: the inverted condition
    [caught exception_match expected] is lowered between the targets
    [branch_yes_1] and [branch_no_1]; afterwards the true target is
    [branch_yes_1] again, and the false target is the bound method
    [getFalseBranchTarget], not the label [branch_no_1]. *)
Theorem inverted_comparison_keeps_bound_method :
  exists s',
    generateConditionCode 270 inversions 10 (Some exception_matches) true false in_branch
    = Ok tt s' /\
    true_target (context in_branch) = LabelTarget "branch_yes_1" /\
    false_target (context in_branch) = LabelTarget "branch_no_1" /\
    true_target (context s') = LabelTarget "branch_yes_1" /\
    false_target (context s') = BoundMethod "getFalseBranchTarget".
Proof. eexists. split; [vm_compute; reflexivity|]. repeat split. Qed.

End GenerationFacts.
